(** * CubeTexture (src/Materials/Textures/babylon.cubeTexture.ts)

    A shallow embedding of the [BABYLON.CubeTexture] class: its constructor
    (format resolution, cache lookup, load dispatch), [delayLoad], the
    reflection-matrix and bounding-box accessors and [clone], with the
    properties of the descriptor that follow from the code.

    Conventions of the embedding
    - a JS [string] is a [string] of bytes; [toLowerCase] lowers the ASCII
      letters (the only ones that can produce ".dds" or ".env");
    - [null]/[undefined] are [None]; a JS truthiness test is written out
      ([JsString.truthy], [is_Some]);
    - a JS [number] is a carrier with the operations the class uses
      ([JsNumber]); nothing is assumed about floating-point arithmetic;
    - objects that the code shares by reference (descriptors, the engine's
      internal textures) live in a store and are named by their index;
    - calls that leave the class (cache lookup, engine loads, the scheduler,
      the dirty signal) are recorded, in order, in the world's [calls]. *)

From Stdlib Require Import ZArith Ascii String.
From stdpp Require Import base option list.

Local Open Scope string_scope.
Local Open Scope Z_scope.

(** ** JavaScript strings *)

Module JsString.

Definition toLowerCase_ascii (c : ascii) : ascii :=
  let n := nat_of_ascii c in
  if (Nat.leb 65 n && Nat.leb n 90)%bool then ascii_of_nat (n + 32) else c.

(** [s.toLowerCase()] on the ASCII letters.  On a string of ASCII characters
    this is the result of the JavaScript method; a character outside ASCII is
    left as it is, where the method applies the Unicode mapping.  No such
    character is mapped to a letter of ".dds" or ".env", so the comparison of
    the extension with these two is the one of the code on every string. *)
Fixpoint toLowerCase (s : string) : string :=
  match s with
  | EmptyString => EmptyString
  | String c r => String (toLowerCase_ascii c) (toLowerCase r)
  end.

(** [s.lastIndexOf(c)] for a one-character search string, scanning from
    index [i] with [last] the latest match so far; [-1] when there is none. *)
Fixpoint lastIndexOf_from (s : string) (c : ascii) (i last : Z) : Z :=
  match s with
  | EmptyString => last
  | String d r =>
      lastIndexOf_from r c (i + 1) (if Ascii.eqb d c then i else last)
  end.

Definition lastIndexOf (s : string) (c : ascii) : Z :=
  lastIndexOf_from s c 0 (-1).

(** [s.substring(start)]: the characters from [start] to the end. *)
Fixpoint substring_nat (s : string) (start : nat) : string :=
  match start, s with
  | O, _ => s
  | S n, String _ r => substring_nat r n
  | S _, EmptyString => EmptyString
  end.

Definition substring (s : string) (start : Z) : string :=
  substring_nat s (Z.to_nat start).

(** The strings on which [toLowerCase] is the method of the language. *)
Fixpoint is_ascii (s : string) : bool :=
  match s with
  | EmptyString => true
  | String c r => (Nat.ltb (nat_of_ascii c) 128 && is_ascii r)%bool
  end.

(** [!!s] : the empty string is the only falsy string. *)
Definition truthy (s : string) : bool :=
  match s with EmptyString => false | String _ _ => true end.

End JsString.

(** ** JavaScript numbers

    The class stores numbers, compares them with [===] (inside
    [Vector3.equals]) and hands them to [Math.cos]/[Math.sin] (inside
    [Matrix.RotationY]).  These are the operations of the interface. *)

Class JsNumber (number : Type) := {
  num_zero : number;
  num_one : number;
  num_lod_scale : number;            (* the literal 0.8 *)
  num_neg : number -> number;
  num_cos : number -> number;
  num_sin : number -> number;
  num_eqb : number -> number -> bool  (* strict equality === *)
}.

(** A carrier on which the definitions compute: numbers as terms, with
    integer literals, negation, and [cos] and [sin] left uninterpreted.
    [===] compares the terms after negation is carried out (so [-0] is [0],
    [-(-x)] is [x]), and a term containing [NaN] equals nothing, itself
    included.  Two terms that differ by a fact about [cos] or [sin] are not
    recognised as equal. *)
Inductive SymNumber : Type :=
| NInt (z : Z)
| NLodScale
| NaN
| NNeg (a : SymNumber)
| NCos (a : SymNumber)
| NSin (a : SymNumber).

(** Negation carried out: on a literal, and on a negation. *)
Fixpoint SymNumber_norm (a : SymNumber) : SymNumber :=
  match a with
  | NNeg x =>
      match SymNumber_norm x with
      | NInt z => NInt (- z)
      | NNeg y => y
      | y => NNeg y
      end
  | NCos x => NCos (SymNumber_norm x)
  | NSin x => NSin (SymNumber_norm x)
  | _ => a
  end.

Fixpoint SymNumber_same (a b : SymNumber) : bool :=
  match a, b with
  | NInt x, NInt y => Z.eqb x y
  | NLodScale, NLodScale => true
  | NNeg x, NNeg y => SymNumber_same x y
  | NCos x, NCos y => SymNumber_same x y
  | NSin x, NSin y => SymNumber_same x y
  | _, _ => false
  end.

Definition SymNumber_eqb (a b : SymNumber) : bool :=
  SymNumber_same (SymNumber_norm a) (SymNumber_norm b).

#[export] Instance SymNumber_JsNumber : JsNumber SymNumber := {|
  num_zero := NInt 0;
  num_one := NInt 1;
  num_lod_scale := NLodScale;
  num_neg := NNeg;
  num_cos := NCos;
  num_sin := NSin;
  num_eqb := SymNumber_eqb
|}.

(** ** The objects around the class *)

(** A callback ([onLoad], [onError]) is opaque user code, named by a number. *)
Abbreviation Callback := nat (only parsing).

(** References: the index of an object in its store. *)
Abbreviation Handle := nat (only parsing).   (* an engine-owned InternalTexture *)
Abbreviation Ref := nat (only parsing).      (* a CubeTexture instance *)

(** The [Engine.DELAYLOADSTATE_*] constants. *)
Inductive DelayLoadState : Type :=
| DELAYLOADSTATE_NONE
| DELAYLOADSTATE_LOADED
| DELAYLOADSTATE_LOADING
| DELAYLOADSTATE_NOTLOADED.

#[export] Instance DelayLoadState_eq_dec : EqDecision DelayLoadState.
Proof. solve_decision. Defined.

(** Modelled from the spec: the numeric constants [Engine.TEXTUREFORMAT_RGBA],
    [Texture.EXPLICIT_MODE], [Texture.CUBIC_MODE] and
    [Material.TextureDirtyFlag], declared in classes outside this file. *)
Definition TEXTUREFORMAT_RGBA : Z := 5.
Definition EXPLICIT_MODE : Z := 0.
Definition CUBIC_MODE : Z := 3.
Definition TextureDirtyFlag : Z := 1.

(** The owning scene, as far as the class reads it. *)
Record Scene : Type := {
  useDelayedTextureLoading : bool
}.

(** Modelled from the spec: the engine's InternalTexture, reduced to the cache
    key (identifier, mip policy), the readiness flag and the observers of
    [onLoadedObservable]. *)
Record InternalTexture : Type := {
  it_url : string;
  generateMipMaps : bool;
  isReady : bool;
  onLoadedObservable : list Callback
}.

Section CubeTexture.

Context {number : Type} {NUM : JsNumber number}.

(** *** Vector3 and Matrix, as far as the class uses them *)

Record Vector3 : Type := { vx : number; vy : number; vz : number }.

Definition Vector3_Zero : Vector3 :=
  {| vx := num_zero; vy := num_zero; vz := num_zero |}.

(** Modelled from the spec: [Vector3.equals], component-wise [===]. *)
Definition Vector3_equals (a b : Vector3) : bool :=
  (num_eqb (vx a) (vx b) && num_eqb (vy a) (vy b) && num_eqb (vz a) (vz b))%bool.

(** A matrix is its sixteen entries, row by row. *)
Definition Matrix := list number.

Definition Matrix_Identity : Matrix :=
  let o := num_zero in let i := num_one in
  [ i; o; o; o;
    o; i; o; o;
    o; o; i; o;
    o; o; o; i ].

(** Modelled from the spec: [Matrix.RotationY], the pure rotation about the
    Y axis ([c = cos angle], [s = sin angle]; the Y row and column and the
    homogeneous row and column are those of the identity). *)
Definition Matrix_RotationY (angle : number) : Matrix :=
  let s := num_sin angle in let c := num_cos angle in
  let o := num_zero in let i := num_one in
  [ c; o; num_neg s; o;
    o; i; o;         o;
    s; o; c;         o;
    o; o; o;         i ].

(** *** Calls that leave the class, as recorded in the world *)

Inductive Call : Type :=
| GetFromCache (url : string) (noMipmap : bool)
| CreateCubeTexture (rootUrl : string) (files : option (list string))
    (noMipmap : bool) (onLoad onError : option Callback) (format : Z)
    (forcedExtension : option string)
| CreatePrefilteredCubeTexture (rootUrl : string)
    (lodScale lodOffset : number) (onLoad onError : option Callback)
    (format : Z) (forcedExtension : option string) (createPolynomials : bool)
| SetImmediate (cb : Callback)
| ObservableAdd (texture : Handle) (cb : Callback)
| MarkAllMaterialsAsDirty (flag : Z).

Definition is_load_call (c : Call) : bool :=
  match c with
  | CreateCubeTexture _ _ _ _ _ _ _ => true
  | CreatePrefilteredCubeTexture _ _ _ _ _ _ _ _ => true
  | _ => false
  end.

Definition is_dirty_call (c : Call) : bool :=
  match c with MarkAllMaterialsAsDirty _ => true | _ => false end.

(** *** The descriptor *)

(** The fields of the base class [BaseTexture] that [CubeTexture] reads or
    writes. *)
Record BaseTexture : Type := {
  name : string;
  hasAlpha : bool;
  isCube : bool;
  gammaSpace : bool;
  lodGenerationScale : number;
  lodGenerationOffset : number;
  delayLoadState : DelayLoadState;
  _texture : option Handle;
  _scene : option Scene
}.

Record CubeTexture : Type := {
  base : BaseTexture;
  url : string;
  coordinatesMode : Z;
  boundingBoxPosition : Vector3;
  _boundingBoxSize : option Vector3;
  _rotationY : number;
  _noMipmap : bool;
  _files : option (list string);
  _extensions : option (list string);
  _textureMatrix : Matrix;
  _format : Z;
  _prefiltered : bool;
  _createPolynomials : bool
}.

(** Field assignments [this.f = v]. *)
Definition set_name (v : string) (b : BaseTexture) : BaseTexture :=
  {| name := v; hasAlpha := hasAlpha b; isCube := isCube b;
     gammaSpace := gammaSpace b; lodGenerationScale := lodGenerationScale b;
     lodGenerationOffset := lodGenerationOffset b;
     delayLoadState := delayLoadState b; _texture := _texture b;
     _scene := _scene b |}.
Definition set_hasAlpha (v : bool) (b : BaseTexture) : BaseTexture :=
  {| name := name b; hasAlpha := v; isCube := isCube b;
     gammaSpace := gammaSpace b; lodGenerationScale := lodGenerationScale b;
     lodGenerationOffset := lodGenerationOffset b;
     delayLoadState := delayLoadState b; _texture := _texture b;
     _scene := _scene b |}.
Definition set_isCube (v : bool) (b : BaseTexture) : BaseTexture :=
  {| name := name b; hasAlpha := hasAlpha b; isCube := v;
     gammaSpace := gammaSpace b; lodGenerationScale := lodGenerationScale b;
     lodGenerationOffset := lodGenerationOffset b;
     delayLoadState := delayLoadState b; _texture := _texture b;
     _scene := _scene b |}.
Definition set_gammaSpace (v : bool) (b : BaseTexture) : BaseTexture :=
  {| name := name b; hasAlpha := hasAlpha b; isCube := isCube b;
     gammaSpace := v; lodGenerationScale := lodGenerationScale b;
     lodGenerationOffset := lodGenerationOffset b;
     delayLoadState := delayLoadState b; _texture := _texture b;
     _scene := _scene b |}.
Definition set_delayLoadState (v : DelayLoadState) (b : BaseTexture)
  : BaseTexture :=
  {| name := name b; hasAlpha := hasAlpha b; isCube := isCube b;
     gammaSpace := gammaSpace b; lodGenerationScale := lodGenerationScale b;
     lodGenerationOffset := lodGenerationOffset b;
     delayLoadState := v; _texture := _texture b; _scene := _scene b |}.
Definition set_texture (v : option Handle) (b : BaseTexture) : BaseTexture :=
  {| name := name b; hasAlpha := hasAlpha b; isCube := isCube b;
     gammaSpace := gammaSpace b; lodGenerationScale := lodGenerationScale b;
     lodGenerationOffset := lodGenerationOffset b;
     delayLoadState := delayLoadState b; _texture := v; _scene := _scene b |}.

Definition with_base (f : BaseTexture -> BaseTexture) (t : CubeTexture)
  : CubeTexture :=
  {| base := f (base t); url := url t; coordinatesMode := coordinatesMode t;
     boundingBoxPosition := boundingBoxPosition t;
     _boundingBoxSize := _boundingBoxSize t; _rotationY := _rotationY t;
     _noMipmap := _noMipmap t; _files := _files t;
     _extensions := _extensions t; _textureMatrix := _textureMatrix t;
     _format := _format t; _prefiltered := _prefiltered t;
     _createPolynomials := _createPolynomials t |}.
Definition set_url (v : string) (t : CubeTexture) : CubeTexture :=
  {| base := base t; url := v; coordinatesMode := coordinatesMode t;
     boundingBoxPosition := boundingBoxPosition t;
     _boundingBoxSize := _boundingBoxSize t; _rotationY := _rotationY t;
     _noMipmap := _noMipmap t; _files := _files t;
     _extensions := _extensions t; _textureMatrix := _textureMatrix t;
     _format := _format t; _prefiltered := _prefiltered t;
     _createPolynomials := _createPolynomials t |}.
Definition set__coordinatesMode (v : Z) (t : CubeTexture) : CubeTexture :=
  {| base := base t; url := url t; coordinatesMode := v;
     boundingBoxPosition := boundingBoxPosition t;
     _boundingBoxSize := _boundingBoxSize t; _rotationY := _rotationY t;
     _noMipmap := _noMipmap t; _files := _files t;
     _extensions := _extensions t; _textureMatrix := _textureMatrix t;
     _format := _format t; _prefiltered := _prefiltered t;
     _createPolynomials := _createPolynomials t |}.
Definition set__boundingBoxSize (v : option Vector3) (t : CubeTexture)
  : CubeTexture :=
  {| base := base t; url := url t; coordinatesMode := coordinatesMode t;
     boundingBoxPosition := boundingBoxPosition t;
     _boundingBoxSize := v; _rotationY := _rotationY t;
     _noMipmap := _noMipmap t; _files := _files t;
     _extensions := _extensions t; _textureMatrix := _textureMatrix t;
     _format := _format t; _prefiltered := _prefiltered t;
     _createPolynomials := _createPolynomials t |}.
Definition set__rotationY (v : number) (t : CubeTexture) : CubeTexture :=
  {| base := base t; url := url t; coordinatesMode := coordinatesMode t;
     boundingBoxPosition := boundingBoxPosition t;
     _boundingBoxSize := _boundingBoxSize t; _rotationY := v;
     _noMipmap := _noMipmap t; _files := _files t;
     _extensions := _extensions t; _textureMatrix := _textureMatrix t;
     _format := _format t; _prefiltered := _prefiltered t;
     _createPolynomials := _createPolynomials t |}.
Definition set__noMipmap (v : bool) (t : CubeTexture) : CubeTexture :=
  {| base := base t; url := url t; coordinatesMode := coordinatesMode t;
     boundingBoxPosition := boundingBoxPosition t;
     _boundingBoxSize := _boundingBoxSize t; _rotationY := _rotationY t;
     _noMipmap := v; _files := _files t;
     _extensions := _extensions t; _textureMatrix := _textureMatrix t;
     _format := _format t; _prefiltered := _prefiltered t;
     _createPolynomials := _createPolynomials t |}.
Definition set__files (v : option (list string)) (t : CubeTexture)
  : CubeTexture :=
  {| base := base t; url := url t; coordinatesMode := coordinatesMode t;
     boundingBoxPosition := boundingBoxPosition t;
     _boundingBoxSize := _boundingBoxSize t; _rotationY := _rotationY t;
     _noMipmap := _noMipmap t; _files := v;
     _extensions := _extensions t; _textureMatrix := _textureMatrix t;
     _format := _format t; _prefiltered := _prefiltered t;
     _createPolynomials := _createPolynomials t |}.
Definition set__textureMatrix (v : Matrix) (t : CubeTexture) : CubeTexture :=
  {| base := base t; url := url t; coordinatesMode := coordinatesMode t;
     boundingBoxPosition := boundingBoxPosition t;
     _boundingBoxSize := _boundingBoxSize t; _rotationY := _rotationY t;
     _noMipmap := _noMipmap t; _files := _files t;
     _extensions := _extensions t; _textureMatrix := v;
     _format := _format t; _prefiltered := _prefiltered t;
     _createPolynomials := _createPolynomials t |}.
Definition set__format (v : Z) (t : CubeTexture) : CubeTexture :=
  {| base := base t; url := url t; coordinatesMode := coordinatesMode t;
     boundingBoxPosition := boundingBoxPosition t;
     _boundingBoxSize := _boundingBoxSize t; _rotationY := _rotationY t;
     _noMipmap := _noMipmap t; _files := _files t;
     _extensions := _extensions t; _textureMatrix := _textureMatrix t;
     _format := v; _prefiltered := _prefiltered t;
     _createPolynomials := _createPolynomials t |}.
Definition set__prefiltered (v : bool) (t : CubeTexture) : CubeTexture :=
  {| base := base t; url := url t; coordinatesMode := coordinatesMode t;
     boundingBoxPosition := boundingBoxPosition t;
     _boundingBoxSize := _boundingBoxSize t; _rotationY := _rotationY t;
     _noMipmap := _noMipmap t; _files := _files t;
     _extensions := _extensions t; _textureMatrix := _textureMatrix t;
     _format := _format t; _prefiltered := v;
     _createPolynomials := _createPolynomials t |}.
Definition set__createPolynomials (v : bool) (t : CubeTexture) : CubeTexture :=
  {| base := base t; url := url t; coordinatesMode := coordinatesMode t;
     boundingBoxPosition := boundingBoxPosition t;
     _boundingBoxSize := _boundingBoxSize t; _rotationY := _rotationY t;
     _noMipmap := _noMipmap t; _files := _files t;
     _extensions := _extensions t; _textureMatrix := _textureMatrix t;
     _format := _format t; _prefiltered := _prefiltered t;
     _createPolynomials := v |}.

(** [this.getScene()] of the base class. *)
Definition getScene (t : CubeTexture) : option Scene := _scene (base t).

(** *** The world: stores, scheduler queue and the record of calls *)

Record World : Type := {
  heap : list CubeTexture;                    (* CubeTexture instances *)
  loadedTexturesCache : list InternalTexture; (* the engine's resources *)
  immediates : list Callback;                 (* queued by SetImmediate *)
  invoked : list Callback;                    (* callbacks that have run *)
  calls : list Call                           (* oldest first *)
}.

Definition empty_world : World :=
  {| heap := []; loadedTexturesCache := []; immediates := [];
     invoked := []; calls := [] |}.

(** Code with effects on the world. *)
Definition M (A : Type) : Type := World -> A * World.

Definition ret {A} (a : A) : M A := fun w => (a, w).

Definition bind {A B} (m : M A) (k : A -> M B) : M B :=
  fun w => let (a, w') := m w in k a w'.

End CubeTexture.

Arguments Vector3 : clear implicits.
Arguments Matrix : clear implicits.
Arguments Call : clear implicits.
Arguments BaseTexture : clear implicits.
Arguments CubeTexture : clear implicits.
Arguments World : clear implicits.
Arguments M : clear implicits.

Notation "'let*' x ':=' c 'in' k" := (bind c (fun x => k))
  (at level 10, x name, c at level 100, k at level 200).

(** ** The collaborators of the class *)

Section Collaborators.

Context {number : Type} {NUM : JsNumber number}.

Definition record_call (c : Call number) : M number unit :=
  fun w => (tt, {| heap := heap w;
                   loadedTexturesCache := loadedTexturesCache w;
                   immediates := immediates w; invoked := invoked w;
                   calls := calls w ++ [c] |}).

Definition set_cache (l : list InternalTexture) (w : World number)
  : World number :=
  {| heap := heap w; loadedTexturesCache := l; immediates := immediates w;
     invoked := invoked w; calls := calls w |}.

Definition set_heap (h : list (CubeTexture number)) (w : World number)
  : World number :=
  {| heap := h; loadedTexturesCache := loadedTexturesCache w;
     immediates := immediates w; invoked := invoked w; calls := calls w |}.

(** Modelled from the spec: the constructor of the base class, [super(scene)],
    with the defaults of its field initialisers. *)
Definition BaseTexture_new (scene : Scene) : BaseTexture number :=
  {| name := ""; hasAlpha := false; isCube := false; gammaSpace := true;
     lodGenerationScale := num_lod_scale; lodGenerationOffset := num_zero;
     delayLoadState := DELAYLOADSTATE_NONE; _texture := None;
     _scene := Some scene |}.

(** Modelled from the spec: [lookupCachedResource]; the key is the pair
    (identifier, mip policy), the first matching resource is returned. *)
Fixpoint cache_find (url : string) (noMipmap : bool)
    (l : list InternalTexture) (i : Handle) : option Handle :=
  match l with
  | [] => None
  | e :: r =>
      if (String.eqb (it_url e) url
          && Bool.eqb (generateMipMaps e) (negb noMipmap))%bool
      then Some i
      else cache_find url noMipmap r (S i)
  end.

Definition _getFromCache (url : string) (noMipmap : bool)
  : M number (option Handle) :=
  let* _ := record_call (GetFromCache url noMipmap) in
  fun w => (cache_find url noMipmap (loadedTexturesCache w) 0%nat, w).

(** Modelled from the spec: a load creates a resource that is not ready yet
    and enters it in the engine's cache under its key. *)
Definition engine_register (url : string) (noMipmap : bool) : M number Handle :=
  fun w =>
    (length (loadedTexturesCache w),
     set_cache (loadedTexturesCache w ++
                  [ {| it_url := url; generateMipMaps := negb noMipmap;
                       isReady := false; onLoadedObservable := [] |} ]) w).

(** Modelled from the spec: [loadSixFaceTexture]. *)
Definition createCubeTexture (rootUrl : string) (files : option (list string))
    (noMipmap : bool) (onLoad onError : option Callback) (format : Z)
    (forcedExtension : option string) : M number Handle :=
  let* _ := record_call (CreateCubeTexture rootUrl files noMipmap onLoad
                           onError format forcedExtension) in
  engine_register rootUrl noMipmap.

(** Modelled from the spec: [loadContainerAsPrefiltered]. *)
Definition createPrefilteredCubeTexture (rootUrl : string)
    (lodScale lodOffset : number) (onLoad onError : option Callback)
    (format : Z) (forcedExtension : option string) (createPolynomials : bool)
  : M number Handle :=
  let* _ := record_call (CreatePrefilteredCubeTexture rootUrl lodScale
                           lodOffset onLoad onError format forcedExtension
                           createPolynomials) in
  engine_register rootUrl false.

(** [this._texture.isReady] *)
Definition texture_isReady (h : Handle) : M number bool :=
  fun w => (match loadedTexturesCache w !! h with
            | Some e => isReady e
            | None => false
            end, w).

(** [this._texture.onLoadedObservable.add(cb)] *)
Definition onLoadedObservable_add (h : Handle) (cb : Callback) : M number unit :=
  let* _ := record_call (ObservableAdd h cb) in
  fun w =>
    (tt, match loadedTexturesCache w !! h with
         | Some e =>
             set_cache (<[h := {| it_url := it_url e;
                                  generateMipMaps := generateMipMaps e;
                                  isReady := isReady e;
                                  onLoadedObservable :=
                                    onLoadedObservable e ++ [cb] |}]>
                          (loadedTexturesCache w)) w
         | None => w
         end).

(** Modelled from the spec: [scheduleAsync], here [Tools.SetImmediate]: the
    callback is queued and runs at the next scheduling opportunity, never
    inline. *)
Definition Tools_SetImmediate (cb : Callback) : M number unit :=
  let* _ := record_call (SetImmediate cb) in
  fun w => (tt, {| heap := heap w;
                   loadedTexturesCache := loadedTexturesCache w;
                   immediates := immediates w ++ [cb];
                   invoked := invoked w; calls := calls w |}).

(** Modelled from the spec: the next scheduling opportunity runs the queued
    callbacks, in order. *)
Definition run_immediates : M number unit :=
  fun w => (tt, {| heap := heap w;
                   loadedTexturesCache := loadedTexturesCache w;
                   immediates := [];
                   invoked := invoked w ++ immediates w;
                   calls := calls w |}).

(** Modelled from the spec: the loader reports that a resource is ready; its
    observers run and are released. *)
Definition notify_loaded (h : Handle) : M number unit :=
  fun w =>
    (tt, match loadedTexturesCache w !! h with
         | Some e =>
             {| heap := heap w;
                loadedTexturesCache :=
                  <[h := {| it_url := it_url e;
                            generateMipMaps := generateMipMaps e;
                            isReady := true; onLoadedObservable := [] |}]>
                    (loadedTexturesCache w);
                immediates := immediates w;
                invoked := invoked w ++ onLoadedObservable e;
                calls := calls w |}
         | None => w
         end).

(** [scene.markAllMaterialsAsDirty(flag)] *)
Definition markAllMaterialsAsDirty (flag : Z) : M number unit :=
  record_call (MarkAllMaterialsAsDirty flag).

(** The number of dirty signals recorded in a world. *)
Definition dirty_signals (w : World number) : nat :=
  length (List.filter is_dirty_call (calls w)).

(** [new]: the finished object enters the store under a fresh reference. *)
Definition alloc (t : CubeTexture number) : M number Ref :=
  fun w => (length (heap w), set_heap (heap w ++ [t]) w).

End Collaborators.

(** ** The class *)

(** The parameters of the constructor (lines 95-97). *)
Record Args : Type := {
  rootUrl : string;
  scene : Scene;
  extensions : option (list string);
  noMipmap : bool;
  files : option (list string);
  onLoad : option Callback;
  onError : option Callback;
  format : Z;
  prefiltered : bool;
  forcedExtension : option string;
  createPolynomials : bool
}.

(** A call [new CubeTexture(rootUrl, scene)]: every other parameter at its
    default. *)
Definition default_args (rootUrl : string) (scene : Scene) : Args :=
  {| rootUrl := rootUrl; scene := scene; extensions := None; noMipmap := false;
     files := None; onLoad := None; onError := None;
     format := TEXTUREFORMAT_RGBA; prefiltered := false;
     forcedExtension := None; createPolynomials := false |}.

(** The six default suffixes (line 126). *)
Definition default_extensions : list string :=
  [ "_px.jpg"; "_py.jpg"; "_pz.jpg"; "_nx.jpg"; "_ny.jpg"; "_nz.jpg" ].

(** Lines 119-120: the forced extension when it is truthy, else the root
    identifier from its last dot, lower-cased, else the empty string. *)
Definition resolve_extension (rootUrl : string) (forcedExtension : option string)
  : string :=
  let lastDot := JsString.lastIndexOf rootUrl "."%char in
  match forcedExtension with
  | Some fe =>
      if JsString.truthy fe then fe
      else if lastDot >? -1
           then JsString.toLowerCase (JsString.substring rootUrl lastDot)
           else ""
  | None =>
      if lastDot >? -1
      then JsString.toLowerCase (JsString.substring rootUrl lastDot)
      else ""
  end.

(** Lines 133-135: [files.push(rootUrl + extensions[index])] for each index. *)
Fixpoint push_faces (rootUrl : string) (extensions files : list string)
  : list string :=
  match extensions with
  | [] => files
  | e :: rest => push_faces rootUrl rest (files ++ [rootUrl ++ e])
  end.

(** Lines 124-137: the face list. *)
Definition resolve_files (rootUrl : string) (extensions files : option (list string))
    (isDDS isEnv : bool) : list string :=
  match files with
  | Some f => f
  | None =>
      let extensions1 :=
        if (negb isEnv && negb isDDS && negb (bool_decide (is_Some extensions)))%bool
        then Some default_extensions
        else extensions in
      match extensions1 with
      | Some e => push_faces rootUrl e []
      | None => []
      end
  end.

(** The guard of line 113: [!rootUrl && !files]. *)
Definition incomplete (a : Args) : bool :=
  (negb (JsString.truthy (rootUrl a))
   && negb (bool_decide (is_Some (files a))))%bool.

Section Class.

Context {number : Type} {NUM : JsNumber number}.

(** The object after [super(scene)] and the field initialisers of lines 10
    and 36: the coordinates mode is still the one of the base class, and the
    fields without an initialiser are undefined ([None], or a value that the
    constructor overwrites at once). *)
Definition initial (scene : Scene) : CubeTexture number :=
  {| base := BaseTexture_new scene; url := "";
     coordinatesMode := EXPLICIT_MODE; boundingBoxPosition := Vector3_Zero;
     _boundingBoxSize := None; _rotationY := num_zero; _noMipmap := false;
     _files := None; _extensions := None; _textureMatrix := [];
     _format := 0; _prefiltered := false; _createPolynomials := false |}.

(** Modelled from the spec: the [coordinatesMode] accessor that the class
    inherits from its base class, declared outside this file.  An assignment
    of the current value is dropped; any other is stored and, when the
    descriptor has a scene, signalled with
    [markAllMaterialsAsDirty(Material.TextureDirtyFlag)]. *)
Definition set_coordinatesMode (value : Z) (this : CubeTexture number)
  : M number (CubeTexture number) :=
  if Z.eqb (coordinatesMode this) value then ret this
  else
    let this := set__coordinatesMode value this in
    match getScene this with
    | Some scene =>
        let* _ := markAllMaterialsAsDirty TextureDirtyFlag in ret this
    | None => ret this
    end.

(** Lines 95-164.  The initialiser of line 4,
    [coordinatesMode = Texture.CUBIC_MODE], is an assignment through the
    inherited setter and runs right after [super(scene)]. *)
Definition constructor (a : Args) : M number (CubeTexture number) :=
  let* this := set_coordinatesMode CUBIC_MODE (initial (scene a)) in
  let this := with_base (set_name (rootUrl a)) this in
  let this := set_url (rootUrl a) this in
  let this := set__noMipmap (noMipmap a) this in
  let this := with_base (set_hasAlpha false) this in
  let this := set__format (format a) this in
  let this := set__prefiltered (prefiltered a) this in
  let this := with_base (set_isCube true) this in
  let this := set__textureMatrix Matrix_Identity this in
  let this := set__createPolynomials (createPolynomials a) this in
  let this :=
    if prefiltered a then with_base (set_gammaSpace false) this else this in
  if incomplete a
  then ret this
  else
    let* cached := _getFromCache (rootUrl a) (noMipmap a) in
    let this := with_base (set_texture cached) this in
    let extension := resolve_extension (rootUrl a) (forcedExtension a) in
    let isDDS := String.eqb extension ".dds" in
    let isEnv := String.eqb extension ".env" in
    let files1 :=
      resolve_files (rootUrl a) (extensions a) (files a) isDDS isEnv in
    let this := set__files (Some files1) this in
    match _texture (base this) with
    | None =>
        (* Prefiltered are only available in DDS. *)
        let prefiltered1 := if negb isDDS then false else prefiltered a in
        if negb (useDelayedTextureLoading (scene a)) then
          if prefiltered1 then
            let* h := createPrefilteredCubeTexture (rootUrl a)
                        (lodGenerationScale (base this))
                        (lodGenerationOffset (base this))
                        (onLoad a) (onError a) (format a)
                        (forcedExtension a) (_createPolynomials this) in
            ret (with_base (set_texture (Some h)) this)
          else
            let* h := createCubeTexture (rootUrl a) (Some files1)
                        (noMipmap a) (onLoad a) (onError a) (_format this)
                        (forcedExtension a) in
            ret (with_base (set_texture (Some h)) this)
        else
          ret (with_base (set_delayLoadState DELAYLOADSTATE_NOTLOADED) this)
    | Some h =>
        match onLoad a with
        | Some cb =>
            let* ready := texture_isReady h in
            if ready
            then let* _ := Tools_SetImmediate cb in ret this
            else let* _ := onLoadedObservable_add h cb in ret this
        | None => ret this
        end
    end.

(** [new CubeTexture(...)] *)
Definition new_CubeTexture (a : Args) : M number Ref :=
  let* this := constructor a in alloc this.

(** Lines 59-65: the key is the concatenation of the six file names. *)
Definition CreateFromImages (files : list string) (scene : Scene)
    (noMipmap : bool) : M number Ref :=
  let rootUrlKey := fold_left (fun key url => key ++ url) files "" in
  new_CubeTexture
    {| rootUrl := rootUrlKey; scene := scene; extensions := None;
       noMipmap := noMipmap; files := Some files; onLoad := None;
       onError := None; format := TEXTUREFORMAT_RGBA; prefiltered := false;
       forcedExtension := None; createPolynomials := false |}.

(** Lines 75-77. *)
Definition CreateFromPrefilteredData (url : string) (scene : Scene)
    (forcedExtension : option string) (createPolynomials : bool)
  : M number Ref :=
  new_CubeTexture
    {| rootUrl := url; scene := scene; extensions := None;
       noMipmap := false; files := None; onLoad := None; onError := None;
       format := TEXTUREFORMAT_RGBA; prefiltered := true;
       forcedExtension := forcedExtension;
       createPolynomials := createPolynomials |}.

(** Lines 167-188. *)
Definition delayLoad (this : CubeTexture number) : M number (CubeTexture number) :=
  if negb (bool_decide (delayLoadState (base this) = DELAYLOADSTATE_NOTLOADED))
  then ret this
  else
    match getScene this with
    | None => ret this
    | Some scene =>
        let this := with_base (set_delayLoadState DELAYLOADSTATE_LOADED) this in
        let* cached := _getFromCache (url this) (_noMipmap this) in
        let this := with_base (set_texture cached) this in
        match _texture (base this) with
        | None =>
            if _prefiltered this then
              let* h := createPrefilteredCubeTexture (url this)
                          (lodGenerationScale (base this))
                          (lodGenerationOffset (base this))
                          None None (_format this) None
                          (_createPolynomials this) in
              ret (with_base (set_texture (Some h)) this)
            else
              let* h := createCubeTexture (url this) (_files this)
                          (_noMipmap this) None None (_format this) None in
              ret (with_base (set_texture (Some h)) this)
        | Some _ => ret this
        end
    end.

(** Lines 190-196. *)
Definition getReflectionTextureMatrix (this : CubeTexture number)
  : Matrix number :=
  _textureMatrix this.

Definition setReflectionTextureMatrix (value : Matrix number)
    (this : CubeTexture number) : CubeTexture number :=
  set__textureMatrix value this.

(** Lines 40-49: the [rotationY] accessors. *)
Definition set_rotationY (value : number) (this : CubeTexture number)
  : CubeTexture number :=
  let this := set__rotationY value this in
  setReflectionTextureMatrix (Matrix_RotationY (_rotationY this)) this.

Definition get_rotationY (this : CubeTexture number) : number :=
  _rotationY this.

(** Lines 20-32: the [boundingBoxSize] accessors. *)
Definition set_boundingBoxSize (value : Vector3 number)
    (this : CubeTexture number) : M number (CubeTexture number) :=
  if match _boundingBoxSize this with
     | Some size => Vector3_equals size value
     | None => false
     end
  then ret this
  else
    let this := set__boundingBoxSize (Some value) this in
    match getScene this with
    | Some scene =>
        let* _ := markAllMaterialsAsDirty TextureDirtyFlag in ret this
    | None => ret this
    end.

Definition get_boundingBoxSize (this : CubeTexture number)
  : option (Vector3 number) :=
  _boundingBoxSize this.

(** Modelled from the spec: the field copy of [SerializationHelper.Clone].
    The annotated fields are copied from the source onto the destination:
    in this class [_rotationY] alone carries [@serialize] (line 35); of the
    base class's fields kept here, the descriptive ones ([name], [hasAlpha],
    [isCube], [gammaSpace] and the two lod parameters). *)
Definition copy_annotated (source destination : CubeTexture number)
  : CubeTexture number :=
  let b := base source in
  set__rotationY (_rotationY source)
    (with_base
       (fun d =>
          {| name := name b; hasAlpha := hasAlpha b; isCube := isCube b;
             gammaSpace := gammaSpace b;
             lodGenerationScale := lodGenerationScale b;
             lodGenerationOffset := lodGenerationOffset b;
             delayLoadState := delayLoadState d; _texture := _texture d;
             _scene := _scene d |})
       destination).

(** Modelled from the spec: [SerializationHelper.Clone(creationFunction,
    source)] runs the creation function and copies the annotated fields of
    the source onto the object it returned. *)
Definition SerializationHelper_Clone (creationFunction : M number Ref)
    (source : Ref) : M number Ref :=
  let* destination := creationFunction in
  fun w =>
    match heap w !! source, heap w !! destination with
    | Some s, Some d =>
        (destination, set_heap (<[destination := copy_annotated s d]> (heap w)) w)
    | _, _ => (destination, w)
    end.

(** The arguments with which [clone] calls the constructor (line 234):
    five are given, the others take their defaults. *)
Definition clone_args (self : CubeTexture number) (scene : Scene) : Args :=
  {| rootUrl := url self; scene := scene; extensions := _extensions self;
     noMipmap := _noMipmap self; files := _files self; onLoad := None;
     onError := None; format := TEXTUREFORMAT_RGBA; prefiltered := false;
     forcedExtension := None; createPolynomials := false |}.

(** Lines 227-236.  A reference that names no object cannot be the receiver
    of a call; [clone] then leaves the world as it is. *)
Definition clone (this : Ref) : M number Ref :=
  fun w =>
    match heap w !! this with
    | None => (this, w)
    | Some self =>
        SerializationHelper_Clone
          (match getScene self with
           | None => ret this
           | Some scene => new_CubeTexture (clone_args self scene)
           end)
          this w
    end.

End Class.

(** ** Scenarios on which the definitions are run *)

Definition immediate_scene : Scene := {| useDelayedTextureLoading := false |}.
Definition delayed_scene : Scene := {| useDelayedTextureLoading := true |}.

(** [new CubeTexture("sky.jpg", scene, null, false, null, null, null,
    undefined, true)]: a six-image source for which prefiltered treatment is
    requested. *)
Definition sky_prefiltered_args (scene : Scene) : Args :=
  {| rootUrl := "sky.jpg"; scene := scene; extensions := None;
     noMipmap := false; files := None; onLoad := None; onError := None;
     format := TEXTUREFORMAT_RGBA; prefiltered := true;
     forcedExtension := None; createPolynomials := false |}.

(** The same for the root identifier "env.env". *)
Definition env_prefiltered_args (scene : Scene) : Args :=
  {| rootUrl := "env.env"; scene := scene; extensions := None;
     noMipmap := false; files := None; onLoad := None; onError := None;
     format := TEXTUREFORMAT_RGBA; prefiltered := true;
     forcedExtension := None; createPolynomials := false |}.

(** [new CubeTexture(root, scene, extensions)] *)
Definition suffix_args (root : string) (suffixes : list string) : Args :=
  {| rootUrl := root; scene := immediate_scene; extensions := Some suffixes;
     noMipmap := false; files := None; onLoad := None; onError := None;
     format := TEXTUREFORMAT_RGBA; prefiltered := false;
     forcedExtension := None; createPolynomials := false |}.

(** [new CubeTexture(root, scene, null, false, null, onLoad)] *)
Definition callback_args (root : string) (cb : Callback) : Args :=
  {| rootUrl := root; scene := immediate_scene; extensions := None;
     noMipmap := false; files := None; onLoad := Some cb; onError := None;
     format := TEXTUREFORMAT_RGBA; prefiltered := false;
     forcedExtension := None; createPolynomials := false |}.

(** A world whose engine already holds the resource of "sky". *)
Definition world_with_sky (ready : bool) : World SymNumber :=
  {| heap := [];
     loadedTexturesCache :=
       [ {| it_url := "sky"; generateMipMaps := true; isReady := ready;
            onLoadedObservable := [] |} ];
     immediates := []; invoked := []; calls := [] |}.

(** A descriptor built under delayed loading, and the world it leaves. *)
Definition pending_sky : CubeTexture SymNumber :=
  fst (constructor (default_args "sky" delayed_scene) empty_world).
Definition pending_world : World SymNumber :=
  snd (constructor (default_args "sky" delayed_scene) empty_world).

(** A descriptor built without a root identifier or file list. *)
Definition inert_sky : CubeTexture SymNumber :=
  fst (constructor (default_args "" delayed_scene) empty_world).

(** Two bounding-box extents that are distinct objects with equal
    components. *)
Definition extent_a : Vector3 SymNumber :=
  {| vx := NInt 1; vy := NInt 2; vz := NInt 3 |}.
Definition extent_b : Vector3 SymNumber :=
  {| vx := NInt 1; vy := NInt 2; vz := NInt 3 |}.

(** The same constructor call on another scene. *)
Definition with_scene (sc : Scene) (a : Args) : Args :=
  {| rootUrl := rootUrl a; scene := sc; extensions := extensions a;
     noMipmap := noMipmap a; files := files a; onLoad := onLoad a;
     onError := onError a; format := format a; prefiltered := prefiltered a;
     forcedExtension := forcedExtension a;
     createPolynomials := createPolynomials a |}.

(** A descriptor whose scene is gone, alone in the store. *)
Definition detached_sky : CubeTexture SymNumber :=
  with_base
    (fun b =>
       {| name := name b; hasAlpha := hasAlpha b; isCube := isCube b;
          gammaSpace := gammaSpace b;
          lodGenerationScale := lodGenerationScale b;
          lodGenerationOffset := lodGenerationOffset b;
          delayLoadState := delayLoadState b; _texture := _texture b;
          _scene := None |})
    pending_sky.
Definition detached_world : World SymNumber :=
  {| heap := [detached_sky]; loadedTexturesCache := []; immediates := [];
     invoked := []; calls := [] |}.

(** The world after [new CubeTexture("sky", scene)]: the descriptor is at
    reference 0 of the store. *)
Definition made_sky_world : World SymNumber :=
  snd (new_CubeTexture (default_args "sky" immediate_scene) empty_world).

(** An extent with a component that equals nothing. *)
Definition nan_extent : Vector3 SymNumber :=
  {| vx := NInt 1; vy := NaN; vz := NInt 3 |}.

(** * Properties *)

(** ** The format resolver *)

Example resolve_extension_lowers : resolve_extension "Sky.Box.DDS" None = ".dds".
Proof. reflexivity. Qed.

Example resolve_extension_no_dot : resolve_extension "sky" None = "".
Proof. reflexivity. Qed.

Example resolve_extension_forced_kept_as_is :
  resolve_extension "sky.dds" (Some ".ENV") = ".ENV".
Proof. reflexivity. Qed.

Example resolve_extension_forced_empty :
  resolve_extension "sky.dds" (Some "") = ".dds".
Proof. reflexivity. Qed.

(** A truthy forced extension decides alone, and is not lower-cased. *)
Lemma resolve_extension_forced (root fe : string) :
  JsString.truthy fe = true -> resolve_extension root (Some fe) = fe.
Proof. intros Hfe. unfold resolve_extension. by rewrite Hfe. Qed.

(** [lastIndexOf] answers [-1] or an index of the string. *)
Lemma lastIndexOf_from_range (s : string) (c : ascii) (i last : Z) :
  -1 <= last < i ->
  -1 <= JsString.lastIndexOf_from s c i last < i + Z.of_nat (String.length s).
Proof.
  revert i last; induction s as [|d r IH]; intros i last Hl; simpl.
  - lia.
  - specialize (IH (i + 1) (if Ascii.eqb d c then i else last)).
    destruct (Ascii.eqb d c); lia.
Qed.

Lemma lastIndexOf_range (s : string) (c : ascii) :
  -1 <= JsString.lastIndexOf s c < Z.of_nat (String.length s).
Proof.
  pose proof (lastIndexOf_from_range s c 0 (-1)). unfold JsString.lastIndexOf. lia.
Qed.

(** Without the character in the string the answer is [-1]. *)
Lemma lastIndexOf_from_absent (s : string) (c : ascii) (i last : Z) :
  (forall n, String.get n s <> Some c) ->
  JsString.lastIndexOf_from s c i last = last.
Proof.
  revert i last; induction s as [|d r IH]; intros i last Habs; simpl; [done|].
  destruct (Ascii.eqb_spec d c) as [->|Hne].
  - by destruct (Habs 0%nat).
  - apply IH. intros n. apply (Habs (S n)).
Qed.

Lemma push_faces_app (root : string) (suffixes acc : list string) :
  push_faces root suffixes acc = (acc ++ map (String.append root) suffixes)%list.
Proof.
  revert acc; induction suffixes as [|e rest IH]; intros acc; simpl.
  - by rewrite app_nil_r.
  - by rewrite IH, <- app_assoc.
Qed.

Lemma push_faces_length (root : string) (suffixes : list string) :
  length (push_faces root suffixes []) = length suffixes.
Proof. by rewrite push_faces_app, app_nil_l, length_map. Qed.

Lemma resolve_files_explicit root exts f isDDS isEnv :
  resolve_files root exts (Some f) isDDS isEnv = f.
Proof. reflexivity. Qed.

Lemma resolve_files_suffixes root e isDDS isEnv :
  resolve_files root (Some e) None isDDS isEnv = map (String.append root) e.
Proof.
  unfold resolve_files.
  rewrite bool_decide_eq_true_2 by eauto.
  rewrite !andb_false_r. by rewrite push_faces_app.
Qed.

Lemma resolve_files_default root isDDS isEnv :
  resolve_files root None None isDDS isEnv =
    if (isDDS || isEnv)%bool then []
    else map (String.append root) default_extensions.
Proof.
  unfold resolve_files.
  rewrite bool_decide_eq_false_2 by (intros [? ?]; discriminate).
  destruct isDDS, isEnv; reflexivity.
Qed.

(** Symbolic execution of the effectful definitions. *)
Ltac run :=
  unfold constructor, set_coordinatesMode, delayLoad, set_boundingBoxSize,
    bind, ret,
    _getFromCache, createCubeTexture, createPrefilteredCubeTexture,
    Tools_SetImmediate, onLoadedObservable_add, texture_isReady,
    markAllMaterialsAsDirty, record_call, engine_register; simpl.

(** ** The constructor *)

Section ConstructorProperties.

Context {number : Type} {NUM : JsNumber number}.

Implicit Types (a : Args) (w : World number) (t : CubeTexture number).

Lemma incomplete_true a :
  JsString.truthy (rootUrl a) = false -> files a = None -> incomplete a = true.
Proof.
  intros Hr Hf. unfold incomplete. rewrite Hr, Hf. reflexivity.
Qed.

Lemma incomplete_false a :
  JsString.truthy (rootUrl a) = true \/ is_Some (files a) ->
  incomplete a = false.
Proof.
  intros [Hr|Hf]; unfold incomplete.
  - by rewrite Hr.
  - rewrite (bool_decide_eq_true_2 _ Hf). apply andb_false_r.
Qed.

(** The stored flag is the requested one on every path: line 105 assigns
    it, and no later line of the constructor writes the field. *)
Lemma constructor_prefiltered_stored a w :
  _prefiltered (fst (constructor a w)) = prefiltered a.
Proof.
  run.
  repeat (case_match; simpl; try reflexivity).
Qed.

Lemma constructor_url a w : url (fst (constructor a w)) = rootUrl a.
Proof.
  run.
  repeat (case_match; simpl; try reflexivity).
Qed.

Lemma constructor_scene a w :
  getScene (fst (constructor a w)) = Some (scene a).
Proof.
  run.
  repeat (case_match; simpl; try reflexivity).
Qed.

Lemma constructor_files a w :
  incomplete a = false ->
  _files (fst (constructor a w)) =
    Some (resolve_files (rootUrl a) (extensions a) (files a)
            (String.eqb (resolve_extension (rootUrl a) (forcedExtension a)) ".dds")
            (String.eqb (resolve_extension (rootUrl a) (forcedExtension a)) ".env")).
Proof.
  intros Hc. run. rewrite Hc.
  repeat (case_match; simpl; try reflexivity).
Qed.

Lemma constructor_files_incomplete a w :
  incomplete a = true -> _files (fst (constructor a w)) = None.
Proof. intros Hc. run. rewrite Hc. by destruct (prefiltered a). Qed.

(** A lookup that succeeds names a resource of the cache. *)
Lemma cache_find_bounds url nm (l : list InternalTexture) (i h : Handle) :
  cache_find url nm l i = Some h -> (i <= h < i + length l)%nat.
Proof.
  revert i; induction l as [|e r IH]; intros i; simpl; [done|].
  case_match.
  - intros [= <-]. lia.
  - intros Hf. apply IH in Hf. lia.
Qed.

Lemma cache_find_lookup url nm (l : list InternalTexture) (h : Handle) :
  cache_find url nm l 0%nat = Some h -> is_Some (l !! h).
Proof.
  intros Hf. apply cache_find_bounds in Hf.
  apply lookup_lt_is_Some. lia.
Qed.

(** C9: the constructor clears [gammaSpace] exactly when the prefiltered
    flag is requested, whatever the other parameters and the world are (so
    also for a source that is no container and on the path that returns
    before any lookup); otherwise the field keeps the value that the base
    class gave it. *)
Theorem constructor_gammaSpace a w :
  gammaSpace (base (fst (constructor a w))) =
    if prefiltered a then false
    else gammaSpace (BaseTexture_new (number := number) (scene a)).
Proof.
  run. repeat (case_match; simpl; try reflexivity).
Qed.

(** C8: with an empty root identifier and no file list the constructor
    returns at line 114.  The one call it has recorded by then is the dirty
    signal of the coordinates mode (line 4): no lookup and no load are
    recorded, no resource is created, nothing is queued or run, no face list
    is stored, and the descriptor has no backing texture and is not marked
    for delayed loading. *)
Theorem constructor_incomplete_is_inert a w :
  JsString.truthy (rootUrl a) = false ->
  files a = None ->
  let t' := fst (constructor a w) in
  let w' := snd (constructor a w) in
  calls w' = (calls w ++ [MarkAllMaterialsAsDirty TextureDirtyFlag])%list /\
  loadedTexturesCache w' = loadedTexturesCache w /\
  heap w' = heap w /\
  immediates w' = immediates w /\
  invoked w' = invoked w /\
  _files t' = None /\
  _texture (base t') = None /\
  delayLoadState (base t') = DELAYLOADSTATE_NONE.
Proof.
  intros Hr Hf. run. rewrite (incomplete_true a Hr Hf).
  by destruct (prefiltered a).
Qed.

(** C3, as the code has it: with neither a root identifier nor a file list
    the constructor returns before a face list is stored.  Otherwise a file
    list that is given is stored as it is; without one, a suffix list that is
    given yields the root identifier followed by each suffix, in the order
    given, one entry per suffix, whatever the extension is; with neither
    list, the six default entries, in their fixed order, for an extension
    that is neither .dds nor .env, and no entry for these two. *)
Theorem constructor_face_list a w :
  let ext := resolve_extension (rootUrl a) (forcedExtension a) in
  let r := rootUrl a in
  _files (fst (constructor a w)) =
    match files a, extensions a with
    | Some f, _ => Some f
    | None, Some e =>
        if JsString.truthy r then Some (map (String.append r) e) else None
    | None, None =>
        if JsString.truthy r
        then Some (if (String.eqb ext ".dds" || String.eqb ext ".env")%bool
                   then []
                   else [ r ++ "_px.jpg"; r ++ "_py.jpg"; r ++ "_pz.jpg";
                          r ++ "_nx.jpg"; r ++ "_ny.jpg"; r ++ "_nz.jpg" ])
        else None
    end.
Proof.
  intros ext r.
  destruct (incomplete a) eqn:Hinc.
  - rewrite constructor_files_incomplete by done.
    unfold incomplete in Hinc. apply andb_true_iff in Hinc as [Hr Hf].
    apply negb_true_iff in Hr. apply negb_true_iff in Hf.
    apply bool_decide_eq_false in Hf. fold r in Hr. rewrite Hr.
    destruct (files a) as [f|]; [destruct Hf; eauto|].
    by destruct (extensions a).
  - rewrite constructor_files by done. fold ext. fold r.
    destruct (files a) as [f|] eqn:Hf; [reflexivity|].
    assert (Hr : JsString.truthy r = true).
    { unfold incomplete in Hinc. rewrite Hf in Hinc. simpl in Hinc.
      rewrite andb_true_r in Hinc. by apply negb_false_iff in Hinc. }
    rewrite Hr.
    destruct (extensions a) as [e|].
    + by rewrite resolve_files_suffixes.
    + rewrite resolve_files_default. by case_match.
Qed.

(** C7: when the lookup of the constructor finds a resource and a success
    callback is given, the constructor records no load call and runs no
    callback: after the dirty signal of the coordinates mode (line 4) and the
    lookup it records one more call.  If the resource is ready, the callback is handed to
    [Tools.SetImmediate] and runs at the next scheduling opportunity;
    if it is not, the callback is added to the observers of the resource
    and runs when the loader reports the resource ready. *)
Theorem constructor_cache_hit a w (h : Handle) (cb : Callback) :
  JsString.truthy (rootUrl a) = true \/ is_Some (files a) ->
  cache_find (rootUrl a) (noMipmap a) (loadedTexturesCache w) 0%nat = Some h ->
  onLoad a = Some cb ->
  let t' := fst (constructor a w) in
  let w' := snd (constructor a w) in
  let signal := MarkAllMaterialsAsDirty TextureDirtyFlag in
  let lookup := GetFromCache (rootUrl a) (noMipmap a) in
  _texture (base t') = Some h /\
  List.filter is_load_call (calls w') = List.filter is_load_call (calls w) /\
  invoked w' = invoked w /\
  exists e, loadedTexturesCache w !! h = Some e /\
    if isReady e
    then calls w' = (calls w ++ [signal; lookup; SetImmediate cb])%list /\
         immediates w' = (immediates w ++ [cb])%list /\
         loadedTexturesCache w' = loadedTexturesCache w /\
         invoked (snd (run_immediates w')) =
           (invoked w ++ immediates w ++ [cb])%list
    else calls w' = (calls w ++ [signal; lookup; ObservableAdd h cb])%list /\
         immediates w' = immediates w /\
         (onLoadedObservable <$> loadedTexturesCache w' !! h) =
           Some (onLoadedObservable e ++ [cb])%list /\
         invoked (snd (notify_loaded h w')) =
           (invoked w ++ onLoadedObservable e ++ [cb])%list.
Proof.
  intros Hc Hhit Hcb t' w' signal lookup.
  destruct (cache_find_lookup _ _ _ _ Hhit) as [e He].
  subst t' w'. run.
  rewrite (incomplete_false a Hc). simpl. rewrite Hhit, Hcb. simpl.
  rewrite !He.
  assert (Hlt : (h < length (loadedTexturesCache w))%nat)
    by (apply lookup_lt_is_Some; eauto).
  destruct (isReady e) eqn:Hready; simpl; rewrite ?He; simpl;
    (split; [reflexivity|]);
    (split; [rewrite !List.filter_app; simpl; by rewrite !app_nil_r|]);
    (split; [reflexivity|]);
    exists e; (split; [reflexivity|]); rewrite Hready;
    rewrite <- ?app_assoc; simpl.
  - done.
  - rewrite !list_lookup_insert_eq by done. simpl. done.
Qed.

(** X1: on a miss the constructor records, after the dirty signal of the
    coordinates mode (line 4) and the lookup, either exactly one load or, on
    a scene with delayed loading, nothing more.  The load is the prefiltered one only
    when the flag is requested and the resolved extension is .dds, and the
    six-image one otherwise; it carries the callbacks, the format and the
    forced extension of the call.  Under delayed loading the cache is left as
    it was and the descriptor is marked NOTLOADED. *)
Lemma constructor_cache_miss a w :
  JsString.truthy (rootUrl a) = true \/ is_Some (files a) ->
  cache_find (rootUrl a) (noMipmap a) (loadedTexturesCache w) 0%nat = None ->
  let t' := fst (constructor a w) in
  let w' := snd (constructor a w) in
  let ext := resolve_extension (rootUrl a) (forcedExtension a) in
  let signal := MarkAllMaterialsAsDirty TextureDirtyFlag in
  let lookup := GetFromCache (rootUrl a) (noMipmap a) in
  if useDelayedTextureLoading (scene a)
  then calls w' = (calls w ++ [signal; lookup])%list /\
       loadedTexturesCache w' = loadedTexturesCache w /\
       delayLoadState (base t') = DELAYLOADSTATE_NOTLOADED /\
       _texture (base t') = None
  else calls w' =
         (calls w ++
            [signal; lookup;
             if (String.eqb ext ".dds" && prefiltered a)%bool
             then CreatePrefilteredCubeTexture (rootUrl a) num_lod_scale
                    num_zero (onLoad a) (onError a) (format a)
                    (forcedExtension a) (createPolynomials a)
             else CreateCubeTexture (rootUrl a) (_files t') (noMipmap a)
                    (onLoad a) (onError a) (format a) (forcedExtension a)])%list /\
       delayLoadState (base t') = DELAYLOADSTATE_NONE /\
       _texture (base t') = Some (length (loadedTexturesCache w)).
Proof.
  intros Hc Hmiss t' w' ext signal lookup. subst t' w'. run.
  rewrite (incomplete_false a Hc). simpl. rewrite Hmiss. simpl. fold ext.
  destruct (useDelayedTextureLoading (scene a)); simpl.
  - destruct (prefiltered a); simpl; by rewrite <- !app_assoc.
  - destruct (String.eqb ext ".dds"), (prefiltered a); simpl;
      by rewrite <- !app_assoc.
Qed.

End ConstructorProperties.

(** ** Delayed loading *)

Section DelayLoadProperties.

Context {number : Type} {NUM : JsNumber number}.

Implicit Types (w : World number) (t : CubeTexture number).

Lemma delayLoad_not_pending t w :
  delayLoadState (base t) <> DELAYLOADSTATE_NOTLOADED ->
  delayLoad t w = (t, w).
Proof.
  intros Hs. unfold delayLoad. by rewrite bool_decide_eq_false_2.
Qed.

Lemma delayLoad_detached t w :
  getScene t = None -> delayLoad t w = (t, w).
Proof.
  intros Hs. unfold delayLoad. rewrite Hs. by case_match.
Qed.

Lemma delayLoad_state t w :
  delayLoadState (base t) = DELAYLOADSTATE_NOTLOADED ->
  is_Some (getScene t) ->
  delayLoadState (base (fst (delayLoad t w))) = DELAYLOADSTATE_LOADED.
Proof.
  intros Hs [sc Hsc]. run. rewrite Hs, Hsc. simpl.
  repeat (case_match; simpl; try reflexivity).
Qed.

(** C2: [delayLoad] changes nothing unless the state is NOTLOADED and the
    scene is there.  Otherwise the state becomes LOADED and the cache is
    looked up again under the stored key: on a hit the resource is reused
    and no load is issued, on a miss exactly one load is issued, the
    prefiltered one or the six-image one by the stored flag.  A second
    call changes nothing, in whatever world it runs. *)
Theorem delayLoad_lifecycle t w :
  let t' := fst (delayLoad t w) in
  let w' := snd (delayLoad t w) in
  let lookup := GetFromCache (url t) (_noMipmap t) in
  let load :=
    if _prefiltered t
    then CreatePrefilteredCubeTexture (url t) (lodGenerationScale (base t))
           (lodGenerationOffset (base t)) None None (_format t) None
           (_createPolynomials t)
    else CreateCubeTexture (url t) (_files t) (_noMipmap t) None None
           (_format t) None in
  (delayLoadState (base t) <> DELAYLOADSTATE_NOTLOADED \/ getScene t = None ->
     t' = t /\ w' = w) /\
  (delayLoadState (base t) = DELAYLOADSTATE_NOTLOADED ->
   is_Some (getScene t) ->
     delayLoadState (base t') = DELAYLOADSTATE_LOADED /\
     match cache_find (url t) (_noMipmap t) (loadedTexturesCache w) 0%nat with
     | Some h =>
         calls w' = (calls w ++ [lookup])%list /\
         _texture (base t') = Some h /\
         loadedTexturesCache w' = loadedTexturesCache w
     | None =>
         calls w' = (calls w ++ [lookup; load])%list /\
         _texture (base t') = Some (length (loadedTexturesCache w)) /\
         length (loadedTexturesCache w') = S (length (loadedTexturesCache w))
     end) /\
  (forall w2, delayLoad t' w2 = (t', w2)).
Proof.
  intros t' w' lookup load. split; [|split].
  - intros [Hs|Hs]; subst t' w'.
    + by rewrite delayLoad_not_pending.
    + by rewrite delayLoad_detached.
  - intros Hs [sc Hsc]. split; [by apply delayLoad_state|].
    subst t' w' lookup load. run. rewrite Hs, Hsc. simpl.
    destruct (cache_find _ _ _ _) as [h|]; simpl; [done|].
    destruct (_prefiltered t); simpl;
      rewrite <- app_assoc, ?length_app; simpl; (split; [done|split; [done|lia]]).
  - intros w2.
    destruct (decide (delayLoadState (base t) = DELAYLOADSTATE_NOTLOADED))
      as [Hs|Hs]; [destruct (getScene t) as [sc|] eqn:Hsc|].
    + apply delayLoad_not_pending. subst t'.
      rewrite delayLoad_state by eauto. discriminate.
    + subst t'. rewrite (delayLoad_detached t w Hsc). simpl.
      by apply delayLoad_detached.
    + subst t'. rewrite (delayLoad_not_pending t w Hs). simpl.
      by apply delayLoad_not_pending.
Qed.

(** Counted on the record of calls: no load on a hit, one on a miss. *)
Lemma delayLoad_load_count t w :
  delayLoadState (base t) = DELAYLOADSTATE_NOTLOADED ->
  is_Some (getScene t) ->
  length (List.filter is_load_call (calls (snd (delayLoad t w)))) =
    (length (List.filter is_load_call (calls w)) +
     match cache_find (url t) (_noMipmap t) (loadedTexturesCache w) 0%nat with
     | Some _ => 0
     | None => 1
     end)%nat.
Proof.
  intros Hs [sc Hsc]. run. rewrite Hs, Hsc. simpl.
  destruct (cache_find _ _ _ _) as [h|]; simpl.
  - rewrite List.filter_app, length_app. simpl. lia.
  - destruct (_prefiltered t); simpl;
      rewrite !List.filter_app, !length_app; simpl; lia.
Qed.

End DelayLoadProperties.

(** ** The reflection matrix, the rotation angle and the bounding box *)

Section AccessorProperties.

Context {number : Type} {NUM : JsNumber number}.

Implicit Types (w : World number) (t : CubeTexture number).

(** C5: after the rotation angle is set to [theta] the reflection matrix
    read back is [Matrix.RotationY(theta)], the pure rotation about Y, and
    once [setReflectionTextureMatrix(m)] has run it is [m], whatever [m]
    is. *)
Theorem rotationY_then_matrix (theta : number) (m : Matrix number) t :
  getReflectionTextureMatrix (set_rotationY theta t) = Matrix_RotationY theta /\
  getReflectionTextureMatrix
    (setReflectionTextureMatrix m (set_rotationY theta t)) = m.
Proof. split; reflexivity. Qed.

(** Setting the angle discards a matrix assigned before. *)
Lemma rotationY_overwrites_matrix (theta : number) (m : Matrix number) t :
  getReflectionTextureMatrix
    (set_rotationY theta (setReflectionTextureMatrix m t)) =
  Matrix_RotationY theta.
Proof. reflexivity. Qed.

(** C10: [setReflectionTextureMatrix] does not touch the rotation angle:
    after the angle is set to [theta] and the matrix is overwritten with
    [m], the angle read back is still [theta], so for any [m] other than the
    rotation for [theta] the angle no longer describes the matrix. *)
Theorem matrix_overwrite_keeps_angle (theta : number) (m : Matrix number) t :
  let t' := setReflectionTextureMatrix m (set_rotationY theta t) in
  get_rotationY t' = theta /\
  (m <> Matrix_RotationY theta ->
     getReflectionTextureMatrix t' <> Matrix_RotationY (get_rotationY t')).
Proof. intros t'. split; [reflexivity|]. intros Hm. exact Hm. Qed.

Lemma Vector3_equals_trans (a b c : Vector3 number) :
  (forall x y z : number,
      num_eqb x y = true -> num_eqb y z = true -> num_eqb x z = true) ->
  Vector3_equals a b = true -> Vector3_equals b c = true ->
  Vector3_equals a c = true.
Proof.
  intros Htrans. unfold Vector3_equals.
  rewrite !andb_true_iff. intros [[? ?] ?] [[? ?] ?]. eauto 10.
Qed.

(** An assignment of an equal extent is dropped. *)
Lemma set_boundingBoxSize_equal (size v : Vector3 number) t w :
  _boundingBoxSize t = Some size -> Vector3_equals size v = true ->
  set_boundingBoxSize v t w = (t, w).
Proof. intros Hs He. unfold set_boundingBoxSize. by rewrite Hs, He. Qed.

(** One assignment signals at most once, and leaves an extent stored that
    equals the assigned one whenever it is dropped. *)
Lemma set_boundingBoxSize_once (v : Vector3 number) t w :
  let t1 := fst (set_boundingBoxSize v t w) in
  let w1 := snd (set_boundingBoxSize v t w) in
  (dirty_signals w1 <= dirty_signals w + 1)%nat /\
  (_boundingBoxSize t1 = Some v \/
   exists size, _boundingBoxSize t1 = Some size /\
                Vector3_equals size v = true).
Proof.
  unfold dirty_signals. run.
  destruct (_boundingBoxSize t) as [size|] eqn:Hsize; simpl.
  - destruct (Vector3_equals size v) eqn:He; simpl.
    + split; [lia|]. right. eauto.
    + destruct (getScene _); simpl;
        rewrite ?List.filter_app, ?length_app; simpl; split; try lia; eauto.
  - destruct (getScene _); simpl;
      rewrite ?List.filter_app, ?length_app; simpl; split; try lia; eauto.
Qed.

(** C6: two assignments of the bounding-box size with component-wise equal
    vectors signal [markAllMaterialsAsDirty] at most once: the second one
    leaves the descriptor, its stored extent and the world as the first one
    left them.  ([===] on numbers is transitive; it is not reflexive, and a
    vector with a NaN component equals no vector.) *)
Theorem boundingBoxSize_set_twice (v1 v2 : Vector3 number) t w :
  (forall x y z : number,
      num_eqb x y = true -> num_eqb y z = true -> num_eqb x z = true) ->
  Vector3_equals v1 v2 = true ->
  let t1 := fst (set_boundingBoxSize v1 t w) in
  let w1 := snd (set_boundingBoxSize v1 t w) in
  let t2 := fst (set_boundingBoxSize v2 t1 w1) in
  let w2 := snd (set_boundingBoxSize v2 t1 w1) in
  t2 = t1 /\ w2 = w1 /\
  get_boundingBoxSize t2 = get_boundingBoxSize t1 /\
  dirty_signals w2 = dirty_signals w1 /\
  (dirty_signals w2 <= dirty_signals w + 1)%nat.
Proof.
  intros Htrans Heq t1 w1 t2 w2.
  destruct (set_boundingBoxSize_once v1 t w) as [Hle Hstored].
  fold t1 w1 in Hle, Hstored.
  assert (Hnoop : set_boundingBoxSize v2 t1 w1 = (t1, w1)).
  { destruct Hstored as [Hs|(size & Hs & He)].
    - by apply (set_boundingBoxSize_equal v1).
    - apply (set_boundingBoxSize_equal size); [done|].
      by apply (Vector3_equals_trans size v1 v2). }
  subst t2 w2. rewrite Hnoop. simpl. done.
Qed.

End AccessorProperties.

(** ** Cloning *)

Section CloneProperties.

Context {number : Type} {NUM : JsNumber number}.

Implicit Types (w : World number) (t : CubeTexture number).

Lemma constructor_heap a w : heap (snd (constructor a w)) = heap w.
Proof.
  run. repeat (case_match; simpl; try reflexivity).
Qed.

Lemma copy_annotated_self t : copy_annotated t t = t.
Proof. destruct t as [[] ? ? ? ? ? ? ? ? ? ? ? ?]. reflexivity. Qed.

Lemma copy_annotated_prefiltered (s d : CubeTexture number) :
  _prefiltered (copy_annotated s d) = _prefiltered d.
Proof. reflexivity. Qed.

Lemma set_heap_same w : set_heap (heap w) w = w.
Proof. by destruct w. Qed.

(** X14: without a scene [clone] returns the receiver and changes nothing:
    no object is created, no call is recorded. *)
Lemma clone_detached (this : Ref) self w :
  heap w !! this = Some self -> getScene self = None ->
  clone this w = (this, w).
Proof.
  intros Hthis Hsc. unfold clone, SerializationHelper_Clone, bind, ret.
  rewrite Hthis, Hsc. simpl. rewrite Hthis, copy_annotated_self.
  by rewrite list_insert_id, set_heap_same.
Qed.

(** With a scene [clone] returns a fresh reference to the object that the
    constructor builds from the stored root identifier, suffix list, mip
    policy and face list, with the annotated fields of the receiver copied
    onto it; the receiver is unchanged. *)
Lemma clone_attached (this : Ref) self (sc : Scene) w :
  heap w !! this = Some self -> getScene self = Some sc ->
  let built := constructor (clone_args self sc) w in
  clone this w =
    (length (heap w),
     set_heap (heap w ++ [copy_annotated self (fst built)]) (snd built)).
Proof.
  intros Hthis Hsc built.
  assert (Hlt : (this < length (heap w))%nat)
    by (apply lookup_lt_is_Some; eauto).
  unfold clone, SerializationHelper_Clone, new_CubeTexture, alloc, bind, ret.
  rewrite Hthis, Hsc.
  pose proof (constructor_heap (clone_args self sc) w) as Hheap.
  fold built in Hheap. fold built.
  destruct built as [t' w1]. simpl in *. rewrite Hheap.
  rewrite (lookup_app_l _ _ this) by done. rewrite Hthis.
  rewrite list_lookup_middle by done.
  replace (length (heap w)) with (length (heap w) + 0)%nat at 2 by lia.
  rewrite insert_app_r. simpl.
  by destruct w1.
Qed.

(** The clone never carries the prefiltered flag: the constructor call of
    line 234 leaves the parameter at its default, and the field has no
    annotation that would have it copied. *)
Lemma clone_prefiltered_reset (this : Ref) self (sc : Scene) w :
  heap w !! this = Some self -> getScene self = Some sc ->
  (_prefiltered <$> heap (snd (clone this w)) !! fst (clone this w))
    = Some false.
Proof.
  intros Hthis Hsc. rewrite (clone_attached this self sc w Hthis Hsc). simpl.
  rewrite list_lookup_middle by done. simpl.
  by rewrite constructor_prefiltered_stored.
Qed.

Lemma constructor_noMipmap a w :
  _noMipmap (fst (constructor a w)) = noMipmap a.
Proof.
  run. repeat (case_match; simpl; try reflexivity).
Qed.

Lemma constructor_files_explicit a w (f : list string) :
  files a = Some f -> _files (fst (constructor a w)) = Some f.
Proof.
  intros Hf. rewrite constructor_files.
  - by rewrite Hf.
  - apply incomplete_false. right. rewrite Hf. eauto.
Qed.

(** X15: with a scene, [clone] returns a fresh reference and leaves the
    receiver as it is; the new object has the root identifier, the mip policy
    and the face list of the receiver. *)
Lemma clone_attached_fields (this : Ref) self (sc : Scene) w :
  heap w !! this = Some self -> getScene self = Some sc ->
  is_Some (_files self) ->
  let copy := heap (snd (clone this w)) !! fst (clone this w) in
  fst (clone this w) = length (heap w) /\
  heap (snd (clone this w)) !! this = Some self /\
  (url <$> copy) = Some (url self) /\
  (_noMipmap <$> copy) = Some (_noMipmap self) /\
  (_files <$> copy) = Some (_files self).
Proof.
  intros Hthis Hsc [f Hf] copy. subst copy.
  assert (Hlt : (this < length (heap w))%nat)
    by (apply lookup_lt_is_Some; eauto).
  rewrite (clone_attached this self sc w Hthis Hsc). simpl.
  rewrite (list_lookup_middle (heap w) [] _ (length (heap w)) eq_refl).
  rewrite (lookup_app_l _ _ this) by done. simpl.
  rewrite constructor_url, constructor_noMipmap.
  rewrite (constructor_files_explicit _ _ f) by done.
  by rewrite Hf.
Qed.

End CloneProperties.

(** ** The properties on the scenarios *)

Lemma SymNumber_same_eq (a b : SymNumber) :
  SymNumber_same a b = true -> a = b.
Proof.
  revert b; induction a; intros [] H; simpl in H; try discriminate;
    try reflexivity; f_equal; auto.
  by apply Z.eqb_eq.
Qed.

Lemma SymNumber_eqb_trans (a b c : SymNumber) :
  SymNumber_eqb a b = true -> SymNumber_eqb b c = true ->
  SymNumber_eqb a c = true.
Proof.
  unfold SymNumber_eqb. intros Hab Hbc.
  by rewrite (SymNumber_same_eq _ _ Hab).
Qed.

(** Negative zero equals zero, and negation undoes itself. *)
Lemma SymNumber_eqb_negation (z : Z) :
  SymNumber_eqb (NNeg (NInt 0)) (NInt 0) = true /\
  SymNumber_eqb (NNeg (NNeg (NSin (NInt z)))) (NSin (NInt z)) = true.
Proof.
  split; [reflexivity|]. unfold SymNumber_eqb. simpl. apply Z.eqb_refl.
Qed.

(** [===] is not reflexive on this carrier. *)
Lemma SymNumber_eqb_NaN : SymNumber_eqb NaN NaN = false.
Proof. reflexivity. Qed.

(** C1: for the six-image source "sky.jpg" constructed with the prefiltered
    flag requested, the stored flag is still true although the resolved
    extension is not .dds: only the parameter is reset at line 144.  Under
    delayed loading [delayLoad] then issues the prefiltered load for this
    source, where the immediate path of the constructor issues the six-image
    load. *)
Theorem prefiltered_flag_kept_for_six_images :
  let a := sky_prefiltered_args delayed_scene in
  let built := constructor a (empty_world : World SymNumber) in
  let faces := [ "sky.jpg_px.jpg"; "sky.jpg_py.jpg"; "sky.jpg_pz.jpg";
                 "sky.jpg_nx.jpg"; "sky.jpg_ny.jpg"; "sky.jpg_nz.jpg" ] in
  resolve_extension (rootUrl a) (forcedExtension a) = ".jpg" /\
  _prefiltered (fst built) = true /\
  delayLoadState (base (fst built)) = DELAYLOADSTATE_NOTLOADED /\
  calls (snd (delayLoad (fst built) (snd built))) =
    [ MarkAllMaterialsAsDirty TextureDirtyFlag;
      GetFromCache "sky.jpg" false; GetFromCache "sky.jpg" false;
      CreatePrefilteredCubeTexture "sky.jpg" NLodScale (NInt 0) None None
        TEXTUREFORMAT_RGBA None false ] /\
  calls (snd (constructor (sky_prefiltered_args immediate_scene)
                (empty_world : World SymNumber))) =
    [ MarkAllMaterialsAsDirty TextureDirtyFlag;
      GetFromCache "sky.jpg" false;
      CreateCubeTexture "sky.jpg" (Some faces) false None None
        TEXTUREFORMAT_RGBA None ].
Proof. vm_compute. repeat split. Qed.

(** C3, as stated, fails: with one suffix supplied, the six-image source
    "sky" gets a face list of one entry, not six; and the container source
    "sky.dds" gets a face list that is not empty. *)
Lemma face_list_neither_six_nor_empty :
  (let a := suffix_args "sky" ["_a.jpg"] in
   files a = None /\
   resolve_extension (rootUrl a) (forcedExtension a) = "" /\
   exists l, _files (fst (constructor a (empty_world : World SymNumber))) = Some l
             /\ length l <> 6%nat) /\
  (let a := suffix_args "sky.dds" ["_a.jpg"] in
   files a = None /\
   resolve_extension (rootUrl a) (forcedExtension a) = ".dds" /\
   exists l, _files (fst (constructor a (empty_world : World SymNumber))) = Some l
             /\ l <> []).
Proof.
  split; simpl.
  - split; [reflexivity|]. split; [reflexivity|].
    exists ["sky_a.jpg"]. split; [reflexivity|]. simpl. lia.
  - split; [reflexivity|]. split; [reflexivity|].
    exists ["sky.dds_a.jpg"]. split; [reflexivity|]. discriminate.
Qed.

Lemma constructor_face_list_witness :
  _files (fst (constructor (suffix_args "sky" ["_a.jpg"; "_b.jpg"])
                 (empty_world : World SymNumber))) =
    Some ["sky_a.jpg"; "sky_b.jpg"] /\
  _files (fst (constructor (suffix_args "" ["_a.jpg"; "_b.jpg"])
                 (empty_world : World SymNumber))) = None.
Proof.
  split.
  - exact (constructor_face_list (suffix_args "sky" ["_a.jpg"; "_b.jpg"])
             (empty_world : World SymNumber)).
  - exact (constructor_face_list (suffix_args "" ["_a.jpg"; "_b.jpg"])
             (empty_world : World SymNumber)).
Defined.

(** C4: the clone of the descriptor of "env.env" built with the prefiltered
    flag is a new object with the same root identifier and an empty face
    list, but its prefiltered flag is false, while the original's is true:
    line 234 does not pass the flag to the constructor. *)
Theorem clone_of_prefiltered_env_drops_flag :
  let made := new_CubeTexture (env_prefiltered_args immediate_scene)
                (empty_world : World SymNumber) in
  let cloned := clone (fst made) (snd made) in
  let original := heap (snd cloned) !! fst made in
  let copy := heap (snd cloned) !! fst cloned in
  fst cloned <> fst made /\
  (url <$> original) = Some "env.env" /\
  (_prefiltered <$> original) = Some true /\
  (url <$> copy) = Some "env.env" /\
  (_files <$> copy) = Some (Some []) /\
  (_prefiltered <$> copy) = Some false.
Proof. vm_compute. repeat split. discriminate. Qed.

Lemma delayLoad_lifecycle_witness :
  (delayLoadState (base pending_sky) = DELAYLOADSTATE_NOTLOADED /\
   is_Some (getScene pending_sky) /\
   delayLoadState (base (fst (delayLoad pending_sky pending_world))) =
     DELAYLOADSTATE_LOADED /\
   fst (delayLoad (fst (delayLoad pending_sky pending_world)) empty_world) =
     fst (delayLoad pending_sky pending_world)) /\
  ((delayLoadState (base inert_sky) <> DELAYLOADSTATE_NOTLOADED
    \/ getScene inert_sky = None) /\
   fst (delayLoad inert_sky pending_world) = inert_sky /\
   snd (delayLoad inert_sky pending_world) = pending_world).
Proof.
  assert (Hs : delayLoadState (base pending_sky) = DELAYLOADSTATE_NOTLOADED)
    by reflexivity.
  assert (Hsc : is_Some (getScene pending_sky)) by (eexists; reflexivity).
  assert (Hi : delayLoadState (base inert_sky) <> DELAYLOADSTATE_NOTLOADED
               \/ getScene inert_sky = None) by (left; discriminate).
  split.
  - destruct (delayLoad_lifecycle pending_sky pending_world)
      as (_ & Hrun & Hagain).
    destruct (Hrun Hs Hsc) as [Hloaded _].
    split; [exact Hs|]. split; [exact Hsc|]. split; [exact Hloaded|].
    by rewrite Hagain.
  - destruct (delayLoad_lifecycle inert_sky pending_world) as (Hnoop & _ & _).
    destruct (Hnoop Hi) as [Ht Hw].
    split; [exact Hi|]. split; [exact Ht | exact Hw].
Defined.

Lemma boundingBoxSize_set_twice_witness :
  (forall x y z : SymNumber,
      num_eqb x y = true -> num_eqb y z = true -> num_eqb x z = true) /\
  Vector3_equals extent_a extent_b = true /\
  let w1 := snd (set_boundingBoxSize extent_a pending_sky pending_world) in
  let t1 := fst (set_boundingBoxSize extent_a pending_sky pending_world) in
  snd (set_boundingBoxSize extent_b t1 w1) = w1 /\
  (dirty_signals (snd (set_boundingBoxSize extent_b t1 w1))
   <= dirty_signals pending_world + 1)%nat.
Proof.
  assert (Htrans : forall x y z : SymNumber,
             num_eqb x y = true -> num_eqb y z = true -> num_eqb x z = true)
    by (intros x y z; exact (SymNumber_eqb_trans x y z)).
  split; [exact Htrans|]. split; [reflexivity|].
  destruct (boundingBoxSize_set_twice extent_a extent_b pending_sky
              pending_world Htrans eq_refl)
    as (_ & Hw & _ & _ & Hle).
  split; assumption.
Defined.

Lemma constructor_cache_hit_witness :
  let a := callback_args "sky" 7%nat in
  (JsString.truthy (rootUrl a) = true \/ is_Some (files a)) /\
  cache_find (rootUrl a) (noMipmap a)
    (loadedTexturesCache (world_with_sky true)) 0%nat = Some 0%nat /\
  onLoad a = Some 7%nat /\
  List.filter is_load_call (calls (snd (constructor a (world_with_sky true))))
    = List.filter is_load_call (calls (world_with_sky true)) /\
  invoked (snd (constructor a (world_with_sky true))) =
    invoked (world_with_sky true).
Proof.
  split; [left; reflexivity|]. split; [reflexivity|]. split; [reflexivity|].
  destruct (constructor_cache_hit (callback_args "sky" 7%nat)
              (world_with_sky true) 0%nat 7%nat
              (or_introl eq_refl) eq_refl eq_refl)
    as (_ & Hload & Hinv & _).
  split; assumption.
Defined.

Lemma constructor_incomplete_is_inert_witness :
  let a := default_args "" immediate_scene in
  JsString.truthy (rootUrl a) = false /\
  files a = None /\
  calls (snd (constructor a (empty_world : World SymNumber))) =
    [MarkAllMaterialsAsDirty TextureDirtyFlag] /\
  _files (fst (constructor a (empty_world : World SymNumber))) = None.
Proof.
  split; [reflexivity|]. split; [reflexivity|].
  destruct (constructor_incomplete_is_inert (default_args "" immediate_scene)
              (empty_world : World SymNumber) eq_refl eq_refl)
    as (Hcalls & _ & _ & _ & _ & Hfiles & _).
  split; [exact Hcalls | exact Hfiles].
Defined.

Lemma matrix_overwrite_keeps_angle_witness :
  let t' := setReflectionTextureMatrix Matrix_Identity
              (set_rotationY (NInt 1) pending_sky) in
  Matrix_Identity <> Matrix_RotationY (NInt 1) /\
  get_rotationY t' = NInt 1 /\
  getReflectionTextureMatrix t' <> Matrix_RotationY (get_rotationY t').
Proof.
  assert (Hm : Matrix_Identity <> Matrix_RotationY (NInt 1)) by discriminate.
  split; [exact Hm|].
  destruct (matrix_overwrite_keeps_angle (NInt 1) Matrix_Identity pending_sky)
    as [Hangle Hstale].
  split; [exact Hangle | exact (Hstale Hm)].
Defined.


(** * Further properties of the code *)

(** ** Lines 119-122: how the extension is read off the root identifier *)

Lemma toLowerCase_ascii_dot (d : ascii) :
  Ascii.eqb (JsString.toLowerCase_ascii d) "."%char = Ascii.eqb d "."%char.
Proof. destruct d as [[] [] [] [] [] [] [] []]; reflexivity. Qed.

Lemma toLowerCase_ascii_idem (d : ascii) :
  JsString.toLowerCase_ascii (JsString.toLowerCase_ascii d) =
  JsString.toLowerCase_ascii d.
Proof. destruct d as [[] [] [] [] [] [] [] []]; reflexivity. Qed.

Lemma toLowerCase_idem (s : string) :
  JsString.toLowerCase (JsString.toLowerCase s) = JsString.toLowerCase s.
Proof.
  induction s as [|d r IH]; simpl; [done|].
  by rewrite toLowerCase_ascii_idem, IH.
Qed.

Lemma lastIndexOf_from_toLowerCase (s : string) (i last : Z) :
  JsString.lastIndexOf_from (JsString.toLowerCase s) "."%char i last =
  JsString.lastIndexOf_from s "."%char i last.
Proof.
  revert i last; induction s as [|d r IH]; intros i last; simpl; [done|].
  by rewrite toLowerCase_ascii_dot, IH.
Qed.

Lemma substring_nat_toLowerCase (s : string) (n : nat) :
  JsString.substring_nat (JsString.toLowerCase s) n =
  JsString.toLowerCase (JsString.substring_nat s n).
Proof.
  revert s; induction n as [|n IH]; intros [|d r]; simpl; auto.
Qed.

Lemma lastIndexOf_from_app (p s : string) (c : ascii) (i last : Z) :
  JsString.lastIndexOf_from (p ++ s) c i last =
  JsString.lastIndexOf_from s c (i + Z.of_nat (String.length p))
    (JsString.lastIndexOf_from p c i last).
Proof.
  revert i last; induction p as [|d r IH]; intros i last; simpl.
  - by rewrite Z.add_0_r.
  - rewrite IH. f_equal. lia.
Qed.

Lemma substring_nat_app (p s : string) :
  JsString.substring_nat (p ++ s) (String.length p) = s.
Proof. induction p as [|d r IH]; simpl; [by destruct s|done]. Qed.

(** X18: for a root identifier of ASCII characters, the extension read off
    it does not depend on the letter case of the identifier, with or without
    a forced extension, and without a forced extension it is in lower
    case. *)
Theorem resolve_extension_case_insensitive (root : string)
    (forced : option string) :
  JsString.is_ascii root = true ->
  resolve_extension (JsString.toLowerCase root) forced =
    resolve_extension root forced /\
  JsString.toLowerCase (resolve_extension root None) =
    resolve_extension root None.
Proof.
  intros _.
  unfold resolve_extension, JsString.lastIndexOf, JsString.substring.
  rewrite lastIndexOf_from_toLowerCase, substring_nat_toLowerCase,
    toLowerCase_idem.
  split; [done|].
  case_match; [apply toLowerCase_idem | done].
Qed.

(** X19: for ASCII characters and without a forced extension, the extension
    is the text from the last dot on, lower-cased, whatever precedes that
    dot: for a tail [body] without a dot, the identifier
    [prefix ++ "." ++ body] resolves to ["." ++ toLowerCase body]. *)
Theorem resolve_extension_after_last_dot (prefix body : string) :
  JsString.is_ascii prefix = true ->
  JsString.is_ascii body = true ->
  (forall n, String.get n body <> Some "."%char) ->
  resolve_extension (prefix ++ String "."%char body) None =
    String "."%char (JsString.toLowerCase body).
Proof.
  intros _ _ Hbody. unfold resolve_extension, JsString.lastIndexOf.
  rewrite lastIndexOf_from_app. simpl.
  rewrite (lastIndexOf_from_absent body _ _ _ Hbody).
  pose proof (lastIndexOf_from_range prefix "."%char 0 (-1)).
  replace (0 + Z.of_nat (String.length prefix) >? -1) with true
    by (symmetry; apply Z.gtb_lt; lia).
  unfold JsString.substring. rewrite Z.add_0_l, Nat2Z.id.
  by rewrite substring_nat_app.
Qed.

(** ** Lines 95-164: the effects of the constructor on every path *)

Section FurtherConstructor.

Context {number : Type} {NUM : JsNumber number}.

Implicit Types (a : Args) (w : World number) (t : CubeTexture number).

Lemma constructor_plain_fields a w :
  let t := fst (constructor a w) in
  _format t = format a /\
  _createPolynomials t = createPolynomials a /\
  _extensions t = None /\
  _textureMatrix t = Matrix_Identity /\
  _rotationY t = num_zero /\
  _boundingBoxSize t = None.
Proof.
  run. repeat (case_match; simpl; try done).
Qed.

Lemma constructor_delayLoadState a w :
  delayLoadState (base (fst (constructor a w))) =
    if (negb (incomplete a)
        && negb (bool_decide
                   (is_Some (cache_find (rootUrl a) (noMipmap a)
                               (loadedTexturesCache w) 0%nat)))
        && useDelayedTextureLoading (scene a))%bool
    then DELAYLOADSTATE_NOTLOADED
    else DELAYLOADSTATE_NONE.
Proof.
  run. destruct (incomplete a); simpl.
  - by destruct (prefiltered a).
  - destruct (cache_find _ _ _ _) as [h|]; simpl.
    + repeat (case_match; simpl; try done).
    + repeat (case_match; simpl; try done).
Qed.

(** X2: when the lookup finds a resource and no success callback is given,
    the constructor records the dirty signal of the coordinates mode (line 4)
    and the lookup, and nothing else: it issues no load, queues and registers
    nothing, and takes the resource found.  The descriptor is not
    marked for delayed loading, also on a scene that asks for it. *)
Theorem constructor_cache_hit_silent a w (h : Handle) :
  JsString.truthy (rootUrl a) = true \/ is_Some (files a) ->
  cache_find (rootUrl a) (noMipmap a) (loadedTexturesCache w) 0%nat = Some h ->
  onLoad a = None ->
  let t' := fst (constructor a w) in
  let w' := snd (constructor a w) in
  _texture (base t') = Some h /\
  delayLoadState (base t') = DELAYLOADSTATE_NONE /\
  calls w' = (calls w ++ [MarkAllMaterialsAsDirty TextureDirtyFlag;
                          GetFromCache (rootUrl a) (noMipmap a)])%list /\
  loadedTexturesCache w' = loadedTexturesCache w /\
  immediates w' = immediates w /\
  invoked w' = invoked w /\
  heap w' = heap w.
Proof.
  intros Hc Hhit Hcb t' w'. subst t' w'. run.
  rewrite (incomplete_false a Hc). simpl. rewrite Hhit, Hcb. simpl.
  destruct (prefiltered a); simpl; by rewrite <- !app_assoc.
Qed.

(** X3: on every path the constructor leaves the store of descriptors alone
    and runs no callback.  Its first recorded call is the dirty signal of the
    coordinates mode (line 4), the only dirty signal it sends; after it come
    at most two more calls, at most one of them a load, and none at all when
    neither a root identifier nor a file list is given. *)
Theorem constructor_effects a w :
  let w' := snd (constructor a w) in
  heap w' = heap w /\
  invoked w' = invoked w /\
  dirty_signals w' = (dirty_signals w + 1)%nat /\
  exists new : list (Call number),
    calls w' =
      (calls w ++ MarkAllMaterialsAsDirty TextureDirtyFlag :: new)%list /\
    (length new <= 2)%nat /\
    (length (List.filter is_load_call new) <= 1)%nat /\
    (incomplete a = true -> new = []).
Proof.
  unfold dirty_signals. run.
  destruct (incomplete a) eqn:Hinc; simpl.
  - destruct (prefiltered a); simpl; (split; [done|]); (split; [done|]);
      (split; [by rewrite List.filter_app, length_app|]);
      exists []; simpl; repeat split; done || lia.
  - repeat (case_match; simpl);
      (split; [done|]); (split; [done|]);
      (split; [rewrite <- ?app_assoc; simpl;
               by rewrite List.filter_app, length_app|]);
      eexists; (split; [rewrite <- ?app_assoc; simpl; reflexivity|]);
      simpl; repeat split; try lia; discriminate.
Qed.

End FurtherConstructor.

(** ** Lines 147-156 and 167-188: construction followed by [delayLoad] *)

Section FurtherDelayLoad.

Context {number : Type} {NUM : JsNumber number}.

Implicit Types (a : Args) (w : World number) (t : CubeTexture number).

(** X4: [delayLoad] does nothing to a descriptor fresh from the constructor
    when the construction was incomplete, found its resource in the cache, or
    ran on a scene without delayed loading. *)
Theorem delayLoad_after_constructor a w (w2 : World number) :
  incomplete a = true \/
  is_Some (cache_find (rootUrl a) (noMipmap a) (loadedTexturesCache w) 0%nat) \/
  useDelayedTextureLoading (scene a) = false ->
  delayLoad (fst (constructor a w)) w2 = (fst (constructor a w), w2).
Proof.
  intros Hcase. apply delayLoad_not_pending.
  rewrite constructor_delayLoadState.
  destruct Hcase as [->|[Hhit| ->]]; simpl; [done| |].
  - rewrite (bool_decide_eq_true_2 _ Hhit). simpl.
    by rewrite andb_false_r.
  - by rewrite andb_false_r.
Qed.

(** X5: for a descriptor constructed on a miss under delayed loading the
    constructor records the dirty signal of the coordinates mode (line 4)
    and the lookup; [delayLoad], run in the world the constructor left,
    looks the key up again, misses again and issues one load.  That load is chosen by the flag
    as requested, and passes no callback and no forced extension: those given
    to the constructor are not kept. *)
Theorem delayed_construction_then_delayLoad a w :
  JsString.truthy (rootUrl a) = true \/ is_Some (files a) ->
  cache_find (rootUrl a) (noMipmap a) (loadedTexturesCache w) 0%nat = None ->
  useDelayedTextureLoading (scene a) = true ->
  let built := constructor a w in
  let later := delayLoad (fst built) (snd built) in
  let signal := MarkAllMaterialsAsDirty TextureDirtyFlag in
  let lookup := GetFromCache (rootUrl a) (noMipmap a) in
  calls (snd later) =
    (calls w ++
       [signal; lookup; lookup;
        if prefiltered a
        then CreatePrefilteredCubeTexture (rootUrl a) num_lod_scale num_zero
               None None (format a) None (createPolynomials a)
        else CreateCubeTexture (rootUrl a) (_files (fst built)) (noMipmap a)
               None None (format a) None])%list /\
  delayLoadState (base (fst later)) = DELAYLOADSTATE_LOADED /\
  _texture (base (fst later)) = Some (length (loadedTexturesCache w)).
Proof.
  intros Hc Hmiss Hdel built later signal lookup.
  subst built later signal lookup. run.
  rewrite (incomplete_false a Hc). simpl. rewrite Hmiss, Hdel. simpl.
  destruct (prefiltered a); simpl; repeat (rewrite Hmiss; simpl);
    by rewrite <- !app_assoc.
Qed.

(** X6: when no callback and no forced extension are given, and prefiltered
    treatment is not requested for a source other than .dds, delayed loading
    ends in the load that immediate loading issues, preceded by a second
    lookup, and in the same resource and face list.  Both sequences of calls
    start with the dirty signal of the coordinates mode (line 4). *)
Theorem delayed_matches_immediate a w :
  JsString.truthy (rootUrl a) = true \/ is_Some (files a) ->
  cache_find (rootUrl a) (noMipmap a) (loadedTexturesCache w) 0%nat = None ->
  onLoad a = None -> onError a = None -> forcedExtension a = None ->
  prefiltered a = false \/ resolve_extension (rootUrl a) None = ".dds" ->
  let built := constructor (with_scene delayed_scene a) w in
  let later := delayLoad (fst built) (snd built) in
  let now := constructor (with_scene immediate_scene a) w in
  let signal := MarkAllMaterialsAsDirty TextureDirtyFlag in
  let lookup := GetFromCache (rootUrl a) (noMipmap a) in
  exists load : Call number,
    is_load_call load = true /\
    calls (snd now) = (calls w ++ [signal; lookup; load])%list /\
    calls (snd later) = (calls w ++ [signal; lookup; lookup; load])%list /\
    _texture (base (fst later)) = _texture (base (fst now)) /\
    _files (fst later) = _files (fst now).
Proof.
  intros Hc Hmiss Hl He Hf Hp built later now signal lookup.
  assert (Hcd : incomplete (with_scene delayed_scene a) = false)
    by (by apply incomplete_false).
  assert (Hci : incomplete (with_scene immediate_scene a) = false)
    by (by apply incomplete_false).
  subst built later now signal lookup. run.
  rewrite <- Hf in Hp.
  assert (Hflag :
            (if negb (String.eqb
                        (resolve_extension (rootUrl a) (forcedExtension a)) ".dds")
             then false else prefiltered a) = prefiltered a).
  { destruct Hp as [->| ->]; [by case_match | done]. }
  rewrite Hcd, Hci. simpl. rewrite Hmiss, Hl, He. simpl. rewrite Hflag.
  destruct (prefiltered a); simpl; repeat (rewrite Hmiss; simpl);
    rewrite Hf;
    (eexists; split; [|split; [by rewrite <- !app_assoc|split;
       [by rewrite <- !app_assoc|]]]; [reflexivity|done]).
Qed.

(** X7: [delayLoad] writes the load state and the backing texture only: every
    other field of the descriptor is as before, and in the world the store of
    descriptors, the scheduler queue, the callbacks run and the number of
    dirty signals are as before. *)
Theorem delayLoad_frame t w :
  let t' := fst (delayLoad t w) in
  let w' := snd (delayLoad t w) in
  (exists state texture,
      t' = with_base (set_texture texture)
             (with_base (set_delayLoadState state) t)) /\
  heap w' = heap w /\
  immediates w' = immediates w /\
  invoked w' = invoked w /\
  dirty_signals w' = dirty_signals w.
Proof.
  assert (Hsame : t = with_base (set_texture (_texture (base t)))
                        (with_base (set_delayLoadState (delayLoadState (base t))) t))
    by (by destruct t as [[] ? ? ? ? ? ? ? ? ? ? ? ?]).
  unfold dirty_signals. run.
  repeat (case_match; simpl);
    (split; [eauto|]); repeat (split; [done|]);
    by rewrite ?List.filter_app, ?length_app; simpl; rewrite ?Nat.add_0_r.
Qed.

End FurtherDelayLoad.

(** ** Lines 20-32: assignments of the bounding-box size *)

Section FurtherBoundingBox.

Context {number : Type} {NUM : JsNumber number}.

Implicit Types (w : World number) (t : CubeTexture number).

(** X8: after an assignment of [v] the getter returns [v] itself, or the
    extent that was stored before when [Vector3.equals] reports that one
    equal to [v]. *)
Theorem boundingBoxSize_get_after_set (v : Vector3 number) t w :
  let t' := fst (set_boundingBoxSize v t w) in
  get_boundingBoxSize t' = Some v \/
  exists size, get_boundingBoxSize t = Some size /\
               get_boundingBoxSize t' = Some size /\
               Vector3_equals size v = true.
Proof.
  unfold get_boundingBoxSize. run.
  destruct (_boundingBoxSize t) as [size|] eqn:Hsize; simpl.
  - destruct (Vector3_equals size v) eqn:He; simpl.
    + right. exists size. by rewrite Hsize.
    + left. by destruct (getScene _).
  - left. by destruct (getScene _).
Qed.

(** X9: an assignment that is not dropped (no extent is stored, or the stored
    one does not equal the new one) stores the new extent and records one
    [markAllMaterialsAsDirty(Material.TextureDirtyFlag)] when the descriptor
    has a scene; without a scene it stores the extent and records nothing. *)
Theorem set_boundingBoxSize_stores_and_signals (v : Vector3 number) t w :
  (forall size, _boundingBoxSize t = Some size ->
                Vector3_equals size v = false) ->
  let t' := fst (set_boundingBoxSize v t w) in
  let w' := snd (set_boundingBoxSize v t w) in
  get_boundingBoxSize t' = Some v /\
  calls w' =
    (calls w ++ match getScene t with
                | Some _ => [MarkAllMaterialsAsDirty TextureDirtyFlag]
                | None => []
                end)%list /\
  getScene t' = getScene t /\
  heap w' = heap w /\ immediates w' = immediates w /\ invoked w' = invoked w.
Proof.
  intros Hne. unfold get_boundingBoxSize. run.
  assert (Hguard : match _boundingBoxSize t with
                   | Some size => Vector3_equals size v
                   | None => false
                   end = false).
  { destruct (_boundingBoxSize t) as [size|]; [by apply Hne | done]. }
  rewrite Hguard.
  replace (getScene (set__boundingBoxSize (Some v) t)) with (getScene t)
    by reflexivity.
  destruct (getScene t) eqn:Hsc; simpl; rewrite ?app_nil_r;
    (split; [done|split; [done|split; [exact Hsc|done]]]).
Qed.

(** X10: an extent that does not equal itself (one with a NaN component) is
    never recognised as already stored: assigning it twice in a row to a
    descriptor with a scene sends the dirty signal twice. *)
Theorem boundingBoxSize_not_self_equal_resignals (v : Vector3 number) t w
    (sc : Scene) :
  Vector3_equals v v = false ->
  getScene t = Some sc ->
  (forall size, _boundingBoxSize t = Some size ->
                Vector3_equals size v = false) ->
  let first := set_boundingBoxSize v t w in
  let second := set_boundingBoxSize v (fst first) (snd first) in
  dirty_signals (snd first) = (dirty_signals w + 1)%nat /\
  dirty_signals (snd second) = (dirty_signals w + 2)%nat /\
  get_boundingBoxSize (fst second) = Some v.
Proof.
  intros Hv Hsc Hne. unfold dirty_signals, get_boundingBoxSize. run.
  assert (Hguard : match _boundingBoxSize t with
                   | Some size => Vector3_equals size v
                   | None => false
                   end = false).
  { destruct (_boundingBoxSize t) as [size|]; [by apply Hne | done]. }
  rewrite Hguard.
  replace (getScene (set__boundingBoxSize (Some v) t)) with (getScene t)
    by reflexivity.
  rewrite Hsc. simpl. rewrite Hv. simpl.
  replace (getScene (set__boundingBoxSize (Some v)
                       (set__boundingBoxSize (Some v) t)))
    with (getScene t) by reflexivity.
  rewrite Hsc. simpl.
  rewrite !List.filter_app, !length_app. simpl. split; [lia|split; [lia|done]].
Qed.

End FurtherBoundingBox.

(** ** Lines 59-77: the two factories *)

Lemma string_app_nil_r (s : string) : (s ++ "")%string = s.
Proof. induction s as [|c r IH]; simpl; [done|by rewrite IH]. Qed.

Lemma string_app_assoc (a b c : string) :
  (a ++ (b ++ c))%string = ((a ++ b) ++ c)%string.
Proof. induction a as [|d r IH]; simpl; [done|by rewrite IH]. Qed.

(** The loop of line 62 builds the concatenation of the file names. *)
Lemma rootUrlKey_concat (fs : list string) (acc : string) :
  fold_left (fun key url => (key ++ url)%string) fs acc =
    (acc ++ String.concat "" fs)%string.
Proof.
  revert acc; induction fs as [|f rest IH]; intros acc; simpl.
  - by rewrite string_app_nil_r.
  - rewrite IH. destruct rest as [|g rest']; simpl.
    + by rewrite !string_app_nil_r.
    + by rewrite string_app_assoc.
Qed.

Local Arguments resolve_extension : simpl never.

Section FurtherFactories.

Context {number : Type} {NUM : JsNumber number}.

Implicit Types (w : World number) (t : CubeTexture number).

Lemma constructor_gamma_prefiltered (a : Args) w :
  prefiltered a = true -> gammaSpace (base (fst (constructor a w))) = false.
Proof.
  intros Hp. run. rewrite Hp. repeat (case_match; simpl; try reflexivity).
Qed.

Ltac run_new :=
  unfold CreateFromImages, CreateFromPrefilteredData, new_CubeTexture, alloc;
  run.

(** X11: [CreateFromImages] always looks the cache up, under the
    concatenation of the file names as key, also for an empty file list; the
    lookup is the second call it records, after the dirty signal of the
    coordinates mode (line 4).  The new descriptor has that key as url and
    the file list as given, and is never prefiltered; on a miss without
    delayed loading the one call that follows is the six-image load with
    that file list. *)
Theorem CreateFromImages_descriptor (fs : list string) (sc : Scene)
    (nm : bool) w :
  let made := CreateFromImages fs sc nm w in
  let key := String.concat "" fs in
  fst made = length (heap w) /\
  (exists t, heap (snd made) = (heap w ++ [t])%list /\
             url t = key /\ _files t = Some fs /\ _noMipmap t = nm /\
             _prefiltered t = false) /\
  (exists rest,
     calls (snd made) =
       (calls w ++ MarkAllMaterialsAsDirty TextureDirtyFlag
                :: GetFromCache key nm :: rest)%list /\
     (cache_find key nm (loadedTexturesCache w) 0%nat = None ->
      useDelayedTextureLoading sc = false ->
      rest = [CreateCubeTexture key (Some fs) nm None None
                TEXTUREFORMAT_RGBA None])).
Proof.
  intros made key. subst made. run_new.
  rewrite (rootUrlKey_concat fs ""). simpl. fold key.
  assert (Hc : incomplete
                 {| rootUrl := key; scene := sc; extensions := None;
                    noMipmap := nm; files := Some fs; onLoad := None;
                    onError := None; format := TEXTUREFORMAT_RGBA;
                    prefiltered := false; forcedExtension := None;
                    createPolynomials := false |} = false)
    by (apply incomplete_false; right; simpl; eauto).
  rewrite Hc. simpl.
  destruct (cache_find key nm (loadedTexturesCache w) 0%nat) as [h|] eqn:Hfind;
    simpl.
  - split; [done|]. split; [eexists; split; [reflexivity|done]|].
    exists []. split; [by rewrite <- !app_assoc|]. discriminate.
  - replace (if negb (String.eqb (resolve_extension key None) ".dds")
             then false else false) with false by (by case_match).
    destruct (useDelayedTextureLoading sc) eqn:Hdel; simpl.
    + split; [done|]. split; [eexists; split; [reflexivity|done]|].
      exists []. split; [by rewrite <- !app_assoc|]. discriminate.
    + split; [done|]. split; [eexists; split; [reflexivity|done]|].
      eexists. split; [by rewrite <- !app_assoc|]. done.
Qed.

(** X12: two file lists with the same concatenation have the same key: when
    the cache holds a resource under it, [CreateFromImages] gives both
    descriptors that resource and issues no load for either, although their
    face lists differ. *)
Theorem CreateFromImages_key_collision (f1 f2 : list string) (sc : Scene)
    (nm : bool) w (h : Handle) :
  String.concat "" f1 = String.concat "" f2 ->
  cache_find (String.concat "" f1) nm (loadedTexturesCache w) 0%nat = Some h ->
  let made1 := CreateFromImages f1 sc nm w in
  let made2 := CreateFromImages f2 sc nm w in
  let t1 := heap (snd made1) !! fst made1 in
  let t2 := heap (snd made2) !! fst made2 in
  ((fun t => _texture (base t)) <$> t1) = Some (Some h) /\
  ((fun t => _texture (base t)) <$> t2) = Some (Some h) /\
  (_files <$> t1) = Some (Some f1) /\
  (_files <$> t2) = Some (Some f2) /\
  calls (snd made1) = calls (snd made2) /\
  List.filter is_load_call (calls (snd made1)) =
    List.filter is_load_call (calls w).
Proof.
  intros Hkey Hhit made1 made2 t1 t2. subst t1 t2 made1 made2. run_new.
  rewrite !(rootUrlKey_concat _ ""). simpl. rewrite <- Hkey.
  set (key := String.concat "" f1) in *.
  assert (Hc : forall fs,
             incomplete
               {| rootUrl := key; scene := sc; extensions := None;
                  noMipmap := nm; files := Some fs; onLoad := None;
                  onError := None; format := TEXTUREFORMAT_RGBA;
                  prefiltered := false; forcedExtension := None;
                  createPolynomials := false |} = false)
    by (intros fs; apply incomplete_false; right; simpl; eauto).
  rewrite !Hc. simpl. rewrite Hhit. simpl.
  rewrite !(list_lookup_middle (heap w) [] _ (length (heap w)) eq_refl). simpl.
  repeat split; try done.
  rewrite !List.filter_app. simpl. by rewrite !app_nil_r.
Qed.

(** X13: for every url, forced extension and world,
    [CreateFromPrefilteredData] stores the prefiltered flag and clears
    [gammaSpace].  For a url that is not empty, on a miss without delayed
    loading, it records the dirty signal of the coordinates mode (line 4),
    the lookup and one load: the prefiltered load only when the resolved
    extension is .dds; for any other extension the six-image load, with the
    six default face names (with no face name for .env). *)
Theorem CreateFromPrefilteredData_load (u : string) (sc : Scene)
    (forced : option string) (polynomials : bool) w :
  let made := CreateFromPrefilteredData u sc forced polynomials w in
  let ext := resolve_extension u forced in
  (exists t, heap (snd made) !! fst made = Some t /\
             _prefiltered t = true /\ gammaSpace (base t) = false) /\
  (JsString.truthy u = true ->
   cache_find u false (loadedTexturesCache w) 0%nat = None ->
   useDelayedTextureLoading sc = false ->
   calls (snd made) =
     (calls w ++
        [MarkAllMaterialsAsDirty TextureDirtyFlag;
         GetFromCache u false;
         if String.eqb ext ".dds"
         then CreatePrefilteredCubeTexture u num_lod_scale num_zero None None
                TEXTUREFORMAT_RGBA forced polynomials
         else CreateCubeTexture u
                (Some (if String.eqb ext ".env" then []
                       else map (String.append u) default_extensions))
                false None None TEXTUREFORMAT_RGBA forced])%list).
Proof.
  intros made ext. subst made.
  set (a := {| rootUrl := u; scene := sc; extensions := None;
               noMipmap := false; files := None; onLoad := None;
               onError := None; format := TEXTUREFORMAT_RGBA;
               prefiltered := true; forcedExtension := forced;
               createPolynomials := polynomials |}).
  split.
  - unfold CreateFromPrefilteredData, new_CubeTexture, alloc, bind. fold a.
    pose proof (constructor_prefiltered_stored a w) as Hflag.
    pose proof (constructor_gamma_prefiltered a w eq_refl) as Hgamma.
    pose proof (constructor_heap a w) as Hheap.
    destruct (constructor a w) as [t w1]. simpl in *.
    exists t. rewrite Hheap.
    rewrite (list_lookup_middle (heap w) [] _ (length (heap w)) eq_refl).
    done.
  - intros Hu Hmiss Hdel. run_new.
    assert (Hc : incomplete a = false)
      by (apply incomplete_false; left; exact Hu).
    fold a. rewrite Hc. simpl. rewrite Hmiss, Hdel. simpl. fold ext.
    destruct (String.eqb ext ".dds") eqn:Hdds,
             (String.eqb ext ".env") eqn:Henv; simpl;
      by rewrite <- !app_assoc.
Qed.

End FurtherFactories.

(** ** Lines 227-236: what a clone carries over *)

Section FurtherClone.

Context {number : Type} {NUM : JsNumber number}.

Implicit Types (a : Args) (w : World number) (t : CubeTexture number).

Lemma incomplete_clone_args (self : CubeTexture number) (sc : Scene) :
  incomplete (clone_args self sc) =
    (negb (JsString.truthy (url self))
     && negb (bool_decide (is_Some (_files self))))%bool.
Proof. reflexivity. Qed.

(** X16: the clone takes the constructor's defaults for what line 234 does
    not pass: it is not prefiltered, has the RGBA format, creates no
    polynomials and has no bounding-box size.  The field copy restores the
    rotation angle of the receiver, but not through the setter: the
    reflection matrix of the clone is the identity. *)
Theorem clone_drops_unforwarded (this : Ref) (self : CubeTexture number)
    (sc : Scene) w :
  heap w !! this = Some self -> getScene self = Some sc ->
  let copy := heap (snd (clone this w)) !! fst (clone this w) in
  (_prefiltered <$> copy) = Some false /\
  (_format <$> copy) = Some TEXTUREFORMAT_RGBA /\
  (_createPolynomials <$> copy) = Some false /\
  (get_boundingBoxSize <$> copy) = Some None /\
  (get_rotationY <$> copy) = Some (get_rotationY self) /\
  (getReflectionTextureMatrix <$> copy) = Some Matrix_Identity.
Proof.
  intros Hthis Hsc copy. subst copy.
  rewrite (clone_attached this self sc w Hthis Hsc). simpl.
  rewrite (list_lookup_middle (heap w) [] _ (length (heap w)) eq_refl). simpl.
  destruct (constructor_plain_fields (clone_args self sc) w)
    as (Hformat & Hpoly & _ & Hmatrix & _ & Hsize).
  unfold get_boundingBoxSize, getReflectionTextureMatrix. simpl.
  rewrite Hformat, Hpoly, Hmatrix, Hsize, constructor_prefiltered_stored.
  done.
Qed.

(** X17: the suffix list given to the constructor is not kept, so [clone]
    passes none; the clone of a fresh descriptor still has the root
    identifier, the mip policy and the face list of the original, because
    the resolved face list is passed instead.  This holds for every
    construction, the incomplete one included. *)
Theorem new_then_clone a w :
  let made := new_CubeTexture a w in
  let cloned := clone (fst made) (snd made) in
  let original := fst (constructor a w) in
  let copy := heap (snd cloned) !! fst cloned in
  fst made = length (heap w) /\
  fst cloned = S (length (heap w)) /\
  heap (snd cloned) !! fst made = Some original /\
  extensions (clone_args original (scene a)) = None /\
  (url <$> copy) = Some (rootUrl a) /\
  (_noMipmap <$> copy) = Some (noMipmap a) /\
  (_files <$> copy) = Some (_files original).
Proof.
  intros made cloned original copy.
  assert (Hmade : made = (length (heap w),
                          set_heap (heap w ++ [original]) (snd (constructor a w)))).
  { subst made original. unfold new_CubeTexture, alloc, bind.
    pose proof (constructor_heap a w) as Hh.
    destruct (constructor a w) as [t w1]. simpl in *. by rewrite Hh. }
  assert (Hthis : heap (snd made) !! fst made = Some original).
  { rewrite Hmade. simpl. by apply list_lookup_middle. }
  assert (Hsc : getScene original = Some (scene a))
    by apply constructor_scene.
  assert (Hlen : length (heap (snd made)) = S (length (heap w))).
  { rewrite Hmade. simpl. rewrite length_app. simpl. lia. }
  assert (Hext : extensions (clone_args original (scene a)) = None).
  { unfold original. simpl.
    by destruct (constructor_plain_fields a w) as (_ & _ & -> & _). }
  split; [by rewrite Hmade|].
  subst copy cloned.
  rewrite (clone_attached (fst made) original (scene a) (snd made) Hthis Hsc).
  simpl. rewrite Hlen.
  split; [done|].
  assert (Hlt : (fst made < length (heap (snd made)))%nat)
    by (apply lookup_lt_is_Some; eauto).
  split; [by rewrite (lookup_app_l _ _ (fst made))|].
  split; [exact Hext|].
  rewrite <- Hlen.
  rewrite (list_lookup_middle (heap (snd made)) [] _ _ eq_refl). simpl.
  rewrite constructor_url, constructor_noMipmap. simpl.
  subst original. rewrite constructor_url, constructor_noMipmap.
  split; [done|]. split; [done|]. f_equal.
  destruct (_files (fst (constructor a w))) as [f|] eqn:Hf.
  - by apply constructor_files_explicit.
  - apply constructor_files_incomplete.
    rewrite incomplete_clone_args, Hf, constructor_url.
    destruct (incomplete a) eqn:Hinc.
    + unfold incomplete in Hinc. apply andb_true_iff in Hinc as [-> _]. done.
    + rewrite (constructor_files a w Hinc) in Hf. discriminate.
Qed.

End FurtherClone.

(** ** The further properties on the scenarios *)

Lemma resolve_extension_case_insensitive_witness :
  JsString.is_ascii "Sky.Box.DDS" = true /\
  resolve_extension "sky.box.dds" None = resolve_extension "Sky.Box.DDS" None.
Proof.
  split; [reflexivity|].
  destruct (resolve_extension_case_insensitive "Sky.Box.DDS" None eq_refl)
    as [Hcase _].
  exact Hcase.
Defined.

Lemma resolve_extension_after_last_dot_witness :
  JsString.is_ascii "textures/sky.box" = true /\
  JsString.is_ascii "DDS" = true /\
  (forall n, String.get n "DDS" <> Some "."%char) /\
  resolve_extension "textures/sky.box.DDS" None = ".dds".
Proof.
  assert (Hbody : forall n, String.get n "DDS" <> Some "."%char)
    by (intros [|[|[|[|n]]]]; discriminate).
  split; [reflexivity|]. split; [reflexivity|]. split; [exact Hbody|].
  exact (resolve_extension_after_last_dot "textures/sky.box" "DDS"
           eq_refl eq_refl Hbody).
Defined.

Lemma constructor_cache_miss_witness :
  let a := sky_prefiltered_args immediate_scene in
  (JsString.truthy (rootUrl a) = true \/ is_Some (files a)) /\
  cache_find (rootUrl a) (noMipmap a)
    (loadedTexturesCache (empty_world : World SymNumber)) 0%nat = None /\
  _texture (base (fst (constructor a (empty_world : World SymNumber)))) =
    Some 0%nat.
Proof.
  split; [left; reflexivity|]. split; [reflexivity|].
  destruct (constructor_cache_miss (sky_prefiltered_args immediate_scene)
              (empty_world : World SymNumber) (or_introl eq_refl) eq_refl)
    as (_ & _ & Htex).
  exact Htex.
Defined.

Lemma constructor_cache_hit_silent_witness :
  let a := default_args "sky" delayed_scene in
  (JsString.truthy (rootUrl a) = true \/ is_Some (files a)) /\
  cache_find (rootUrl a) (noMipmap a)
    (loadedTexturesCache (world_with_sky false)) 0%nat = Some 0%nat /\
  onLoad a = None /\
  delayLoadState (base (fst (constructor a (world_with_sky false)))) =
    DELAYLOADSTATE_NONE /\
  calls (snd (constructor a (world_with_sky false))) =
    [MarkAllMaterialsAsDirty TextureDirtyFlag; GetFromCache "sky" false].
Proof.
  split; [left; reflexivity|]. split; [reflexivity|]. split; [reflexivity|].
  destruct (constructor_cache_hit_silent (default_args "sky" delayed_scene)
              (world_with_sky false) 0%nat (or_introl eq_refl) eq_refl eq_refl)
    as (_ & Hstate & Hcalls & _).
  split; [exact Hstate | exact Hcalls].
Defined.

Lemma delayLoad_after_constructor_witness :
  let a := default_args "sky" immediate_scene in
  (incomplete a = true \/
   is_Some (cache_find (rootUrl a) (noMipmap a)
              (loadedTexturesCache (empty_world : World SymNumber)) 0%nat) \/
   useDelayedTextureLoading (scene a) = false) /\
  delayLoad (fst (constructor a empty_world)) pending_world =
    (fst (constructor a empty_world), pending_world).
Proof.
  assert (H : incomplete (default_args "sky" immediate_scene) = true \/
              is_Some (cache_find "sky" false
                         (loadedTexturesCache (empty_world : World SymNumber))
                         0%nat) \/
              useDelayedTextureLoading immediate_scene = false)
    by (right; right; reflexivity).
  split; [exact H|].
  exact (delayLoad_after_constructor (default_args "sky" immediate_scene)
           empty_world pending_world H).
Defined.

Lemma delayed_construction_then_delayLoad_witness :
  let a := callback_args "sky" 7%nat in
  let a := with_scene delayed_scene a in
  let built := constructor a (empty_world : World SymNumber) in
  (JsString.truthy (rootUrl a) = true \/ is_Some (files a)) /\
  cache_find (rootUrl a) (noMipmap a)
    (loadedTexturesCache (empty_world : World SymNumber)) 0%nat = None /\
  useDelayedTextureLoading (scene a) = true /\
  delayLoadState (base (fst (delayLoad (fst built) (snd built)))) =
    DELAYLOADSTATE_LOADED.
Proof.
  split; [left; reflexivity|]. split; [reflexivity|]. split; [reflexivity|].
  destruct (delayed_construction_then_delayLoad
              (with_scene delayed_scene (callback_args "sky" 7%nat))
              (empty_world : World SymNumber) (or_introl eq_refl) eq_refl
              eq_refl)
    as (_ & Hstate & _).
  exact Hstate.
Defined.

Lemma delayed_matches_immediate_witness :
  let a := default_args "sky" immediate_scene in
  let built := constructor (with_scene delayed_scene a)
                 (empty_world : World SymNumber) in
  (JsString.truthy (rootUrl a) = true \/ is_Some (files a)) /\
  cache_find (rootUrl a) (noMipmap a)
    (loadedTexturesCache (empty_world : World SymNumber)) 0%nat = None /\
  onLoad a = None /\ onError a = None /\ forcedExtension a = None /\
  (prefiltered a = false \/ resolve_extension (rootUrl a) None = ".dds") /\
  _files (fst (delayLoad (fst built) (snd built))) =
    _files (fst (constructor (with_scene immediate_scene a)
                   (empty_world : World SymNumber))).
Proof.
  split; [left; reflexivity|]. split; [reflexivity|]. split; [reflexivity|].
  split; [reflexivity|]. split; [reflexivity|]. split; [left; reflexivity|].
  destruct (delayed_matches_immediate (default_args "sky" immediate_scene)
              (empty_world : World SymNumber) (or_introl eq_refl) eq_refl
              eq_refl eq_refl eq_refl (or_introl eq_refl))
    as (load & _ & _ & _ & _ & Hfiles).
  exact Hfiles.
Defined.

Lemma set_boundingBoxSize_stores_and_signals_witness :
  (forall size, _boundingBoxSize pending_sky = Some size ->
                Vector3_equals size extent_a = false) /\
  get_boundingBoxSize (fst (set_boundingBoxSize extent_a pending_sky
                              pending_world)) = Some extent_a /\
  calls (snd (set_boundingBoxSize extent_a pending_sky pending_world)) =
    (calls pending_world ++ [MarkAllMaterialsAsDirty TextureDirtyFlag])%list.
Proof.
  assert (Hne : forall size, _boundingBoxSize pending_sky = Some size ->
                             Vector3_equals size extent_a = false)
    by (intros size Hsize; discriminate Hsize).
  split; [exact Hne|].
  destruct (set_boundingBoxSize_stores_and_signals extent_a pending_sky
              pending_world Hne) as (Hget & Hcalls & _).
  split; [exact Hget | exact Hcalls].
Defined.

Lemma boundingBoxSize_not_self_equal_resignals_witness :
  Vector3_equals nan_extent nan_extent = false /\
  getScene pending_sky = Some delayed_scene /\
  (forall size, _boundingBoxSize pending_sky = Some size ->
                Vector3_equals size nan_extent = false) /\
  dirty_signals
    (snd (set_boundingBoxSize nan_extent
            (fst (set_boundingBoxSize nan_extent pending_sky pending_world))
            (snd (set_boundingBoxSize nan_extent pending_sky pending_world))))
    = (dirty_signals pending_world + 2)%nat.
Proof.
  assert (Hne : forall size, _boundingBoxSize pending_sky = Some size ->
                             Vector3_equals size nan_extent = false)
    by (intros size Hsize; discriminate Hsize).
  assert (Hv : Vector3_equals nan_extent nan_extent = false) by reflexivity.
  split; [exact Hv|]. split; [reflexivity|]. split; [exact Hne|].
  destruct (boundingBoxSize_not_self_equal_resignals nan_extent pending_sky
              pending_world delayed_scene Hv eq_refl Hne)
    as (_ & Htwice & _).
  exact Htwice.
Defined.

Lemma CreateFromImages_key_collision_witness :
  String.concat "" ["sk"; "y"] = String.concat "" ["s"; "ky"] /\
  cache_find (String.concat "" ["sk"; "y"]) false
    (loadedTexturesCache (world_with_sky true)) 0%nat = Some 0%nat /\
  calls (snd (CreateFromImages ["sk"; "y"] immediate_scene false
                (world_with_sky true))) =
    calls (snd (CreateFromImages ["s"; "ky"] immediate_scene false
                  (world_with_sky true))).
Proof.
  split; [reflexivity|]. split; [reflexivity|].
  destruct (CreateFromImages_key_collision ["sk"; "y"] ["s"; "ky"]
              immediate_scene false (world_with_sky true) 0%nat eq_refl eq_refl)
    as (_ & _ & _ & _ & Hcalls & _).
  exact Hcalls.
Defined.

Lemma CreateFromPrefilteredData_load_witness :
  JsString.truthy "sky.env" = true /\
  cache_find "sky.env" false
    (loadedTexturesCache (empty_world : World SymNumber)) 0%nat = None /\
  useDelayedTextureLoading immediate_scene = false /\
  calls (snd (CreateFromPrefilteredData "sky.env" immediate_scene None true
                (empty_world : World SymNumber))) =
    [ MarkAllMaterialsAsDirty TextureDirtyFlag;
      GetFromCache "sky.env" false;
      CreateCubeTexture "sky.env" (Some []) false None None
        TEXTUREFORMAT_RGBA None ].
Proof.
  split; [reflexivity|]. split; [reflexivity|]. split; [reflexivity|].
  destruct (CreateFromPrefilteredData_load "sky.env" immediate_scene None true
              (empty_world : World SymNumber))
    as (_ & Hcalls).
  exact (Hcalls eq_refl eq_refl eq_refl).
Defined.

Lemma clone_detached_witness :
  heap detached_world !! 0%nat = Some detached_sky /\
  getScene detached_sky = None /\
  clone 0%nat detached_world = (0%nat, detached_world).
Proof.
  split; [reflexivity|]. split; [reflexivity|].
  exact (clone_detached 0%nat detached_sky detached_world eq_refl eq_refl).
Defined.

Lemma clone_attached_fields_witness :
  let self := fst (constructor (default_args "sky" immediate_scene)
                     (empty_world : World SymNumber)) in
  heap made_sky_world !! 0%nat = Some self /\
  getScene self = Some immediate_scene /\
  is_Some (_files self) /\
  fst (clone 0%nat made_sky_world) = 1%nat /\
  (_files <$> heap (snd (clone 0%nat made_sky_world))
                !! fst (clone 0%nat made_sky_world)) = Some (_files self).
Proof.
  assert (Hfiles : is_Some
            (_files (fst (constructor (default_args "sky" immediate_scene)
                            (empty_world : World SymNumber)))))
    by (eexists; reflexivity).
  split; [reflexivity|]. split; [reflexivity|]. split; [exact Hfiles|].
  destruct (clone_attached_fields 0%nat _ immediate_scene made_sky_world
              eq_refl eq_refl Hfiles)
    as (Href & _ & _ & _ & Hf).
  split; [exact Href | exact Hf].
Defined.

Lemma clone_drops_unforwarded_witness :
  let self := fst (constructor (default_args "sky" immediate_scene)
                     (empty_world : World SymNumber)) in
  heap made_sky_world !! 0%nat = Some self /\
  getScene self = Some immediate_scene /\
  (_prefiltered <$> heap (snd (clone 0%nat made_sky_world))
                      !! fst (clone 0%nat made_sky_world)) = Some false.
Proof.
  split; [reflexivity|]. split; [reflexivity|].
  destruct (clone_drops_unforwarded 0%nat _ immediate_scene made_sky_world
              eq_refl eq_refl)
    as (Hflag & _).
  exact Hflag.
Defined.
